(** * Alexandria CMDB: CI type schema validation and password hashing

    A shallow embedding of the CI type source (the [CIType] schema, its
    [CITypeAttribute] tree and their validation) and of [crypto.go] (salted
    password hashes), together with the properties of these functions.

    Go strings are byte strings: they are modelled by [string]; a Go
    [error] built by [errors.New] is its message, and a [nil] error is
    [None]. *)

From Stdlib Require Import String Ascii List Bool Arith ZArith Lia.
From Stdlib Require Import Floats.PrimFloat.
Import ListNotations.
Open Scope string_scope.

(** ** Strings *)

(** The case of ASCII letters.  [ToLower] maps the letters [A] to [Z] to
    [a] to [z] and keeps every other byte: it is what [strings.ToLower]
    does on a string of ASCII bytes. *)
Definition is_upper (c : ascii) : bool :=
  let n := nat_of_ascii c in (65 <=? n)%nat && (n <=? 90)%nat.

Definition is_lower (c : ascii) : bool :=
  let n := nat_of_ascii c in (97 <=? n)%nat && (n <=? 122)%nat.

Definition is_digit (c : ascii) : bool :=
  let n := nat_of_ascii c in (48 <=? n)%nat && (n <=? 57)%nat.

Definition lower_ascii (c : ascii) : ascii :=
  if is_upper c then ascii_of_nat (nat_of_ascii c + 32) else c.

Definition upper_ascii (c : ascii) : ascii :=
  if is_lower c then ascii_of_nat (nat_of_ascii c - 32) else c.

Fixpoint map_string (f : ascii -> ascii) (s : string) : string :=
  match s with
  | EmptyString => EmptyString
  | String c s' => String (f c) (map_string f s')
  end.

Fixpoint forallb_string (f : ascii -> bool) (s : string) : bool :=
  match s with
  | EmptyString => true
  | String c s' => f c && forallb_string f s'
  end.

Fixpoint filter_string (f : ascii -> bool) (s : string) : string :=
  match s with
  | EmptyString => EmptyString
  | String c s' => if f c then String c (filter_string f s') else filter_string f s'
  end.

Definition ToLower (s : string) : string := map_string lower_ascii s.
Definition ToUpper (s : string) : string := map_string upper_ascii s.

Fixpoint existsb_string (f : ascii -> bool) (s : string) : bool :=
  match s with
  | EmptyString => false
  | String c s' => f c || existsb_string f s'
  end.


(** [s == ""] *)
Definition is_empty (s : string) : bool :=
  match s with EmptyString => true | String _ _ => false end.

(** ** Data model *)

(** [CITypeAttribute]: one node of a schema's attribute tree.  The counts
    and lengths are Go [int]s, the bounds of the number format are
    [float64]s. *)
#[warnings="-register-all"]
Inductive CITypeAttribute : Type := mkCITypeAttribute {
  Name : string;
  ShortName : string;
  Type_ : string;
  Description : string;
  Children : list CITypeAttribute;
  Required : bool;
  IsArray : bool;
  MinCount : Z;
  MaxCount : Z;
  Singular : string;
  MinLength : Z;
  MaxLength : Z;
  Filters : list string;
  Units : string;
  MinValue : float;
  MaxValue : float
}.

Definition CITypeAttributeList : Type := list CITypeAttribute.

(** [att.ShortName = s] *)
Definition set_ShortName (att : CITypeAttribute) (s : string) : CITypeAttribute :=
  mkCITypeAttribute (Name att) s (Type_ att) (Description att) (Children att)
    (Required att) (IsArray att) (MinCount att) (MaxCount att) (Singular att)
    (MinLength att) (MaxLength att) (Filters att) (Units att)
    (MinValue att) (MaxValue att).

(** The children of [att] after a call that updated them in place. *)
Definition set_Children (att : CITypeAttribute) (l : CITypeAttributeList) : CITypeAttribute :=
  mkCITypeAttribute (Name att) (ShortName att) (Type_ att) (Description att) l
    (Required att) (IsArray att) (MinCount att) (MaxCount att) (Singular att)
    (MinLength att) (MaxLength att) (Filters att) (Units att)
    (MinValue att) (MaxValue att).

(** A leaf or group attribute with only the fields a schema needs. *)
Definition attribute (name short type : string) (children : CITypeAttributeList)
  : CITypeAttribute :=
  mkCITypeAttribute name short type "" children false false 0 0 "" 0 0 [] "" 0%float 0%float.

Module CIType.

(** [CIType]: the top-level schema (the embedded [model] holds the
    database identity and time stamps, which validation never reads). *)
Record t : Type := mk {
  Name : string;
  ShortName : string;
  Description : string;
  Attributes : CITypeAttributeList
}.

(** [c.ShortName = s] *)
Definition set_ShortName (c : t) (s : string) : t :=
  mk (Name c) s (Description c) (Attributes c).

(** [c.Attributes] after a call that updated the list in place. *)
Definition set_Attributes (c : t) (l : CITypeAttributeList) : t :=
  mk (Name c) (ShortName c) (Description c) l.

End CIType.

(** Induction over the attribute tree, children included. *)
Section AttributeInduction.

Variable P : CITypeAttribute -> Prop.
Hypothesis step : forall att, Forall P (Children att) -> P att.

Fixpoint CITypeAttribute_tree_ind (att : CITypeAttribute) : P att :=
  step att
    ((fix children (l : list CITypeAttribute) : Forall P l :=
        match l with
        | [] => Forall_nil P
        | a :: l' => Forall_cons a (CITypeAttribute_tree_ind a) (children l')
        end) (Children att)).

End AttributeInduction.

(** ** [CITypeAttributeList.Get] *)

Section Lookup.

(** [strings.ToLower], of the Go library: the lower-casing of every string,
    ASCII or not. *)
Variable strings_ToLower : string -> string.

(** The loop returns the address of its loop variable, a copy of the
    element: the result is a value, [None] for [nil]. *)
Definition Get (c : CITypeAttributeList) (name : string) : option CITypeAttribute :=
  let name := strings_ToLower name in
  find (fun att => String.eqb (ShortName att) name) c.

End Lookup.

(** ** Schema validation *)

(** The outcome of a validation that updates its subject in place: the
    subject as the call leaves it, and the error returned. *)
Definition outcome (A : Type) : Type := (A * option string)%type.

Definition state {A : Type} (r : outcome A) : A := fst r.
Definition error {A : Type} (r : outcome A) : option string := snd r.

Section Validation.

(** [GetShortName], [IsValidShortName] and the format registry behind
    [GetAttributeFormat] live outside the two files embedded here;
    validation is stated over any such functions.  [Format] is the type
    of the registered validators, and a [nil] lookup is [None]. *)
Variable GetShortName : string -> string.
Variable IsValidShortName : string -> bool.
Variable Format : Type.
Variable GetAttributeFormat : string -> option Format.

(** The body of the loop of [validateAttributes] for the attribute [att],
    with the recursive call on [att.Children] as the inner loop [children].
    An early [return] leaves the later siblings, and the later children,
    as they are. *)
Fixpoint validateAttribute (att : CITypeAttribute) (path : string) {struct att}
  : outcome CITypeAttribute :=
  if is_empty (Name att) then (att, Some "No attribute name specified")
  else
    let att1 := set_ShortName att (GetShortName (Name att)) in
    if negb (IsValidShortName (ShortName att1)) then
      (att1, Some ("Invalid characters in CI Attribute '" ++ path ++ ShortName att1 ++ "'"))
    else if is_empty (Type_ att1) then
      (att1, Some ("No type specified for CI Attribute '" ++ path ++ ShortName att1 ++ "'"))
    else
      match GetAttributeFormat (Type_ att1) with
      | None =>
          (att1, Some ("Unsupported attribute format '" ++ Type_ att1
                       ++ "' for CI Attribute '" ++ path ++ ShortName att1 ++ "'"))
      | Some _ =>
          if String.eqb (Type_ att1) "group" then
            let r :=
              (fix children (atts : list CITypeAttribute) : outcome CITypeAttributeList :=
                 match atts with
                 | [] => ([], None)
                 | a :: rest =>
                     let ra := validateAttribute a (ShortName att1 ++ ".") in
                     match error ra with
                     | Some err => (state ra :: rest, Some err)
                     | None =>
                         let rr := children rest in
                         (state ra :: state rr, error rr)
                     end
                 end) (Children att) in
            (set_Children att1 (state r), error r)
          else if (0 <? length (Children att1))%nat then
            (att1, Some ("CI Attribute '" ++ path ++ ShortName att1
                         ++ "' has children but is not a group attribute"))
          else (att1, None)
      end.

(** [validateAttributes]: the loop over the siblings, in sequence order. *)
Fixpoint validateAttributes (atts : CITypeAttributeList) (path : string)
  : outcome CITypeAttributeList :=
  match atts with
  | [] => ([], None)
  | att :: rest =>
      let ra := validateAttribute att path in
      match error ra with
      | Some err => (state ra :: rest, Some err)
      | None =>
          let rr := validateAttributes rest path in
          (state ra :: state rr, error rr)
      end
  end.

(** [CIType.Validate] *)
Definition Validate (c : CIType.t) : outcome CIType.t :=
  if is_empty (CIType.Name c) then (c, Some "No CI Type name specified")
  else
    let c1 :=
      if is_empty (CIType.ShortName c)
      then CIType.set_ShortName c (GetShortName (CIType.Name c))
      else c in
    if negb (IsValidShortName (CIType.ShortName c1)) then
      (c1, Some "Invalid characters in CI Type name")
    else
      let r := validateAttributes (CIType.Attributes c1) "" in
      (CIType.set_Attributes c1 (state r), error r).

(** *** Vocabulary for the properties of validation *)

(** The checks an attribute passes on its own, before its children are
    looked at: a name, a valid derived short name, a type, and a type the
    registry knows. *)
Definition own_checks (att : CITypeAttribute) : bool :=
  negb (is_empty (Name att))
  && IsValidShortName (GetShortName (Name att))
  && negb (is_empty (Type_ att))
  && match GetAttributeFormat (Type_ att) with Some _ => true | None => false end.

(** The short name [Validate] checks: the one supplied, or the derived
    one when none is. *)
Definition checked_ShortName (c : CIType.t) : string :=
  if is_empty (CIType.ShortName c) then GetShortName (CIType.Name c)
  else CIType.ShortName c.

(** The checks [Validate] makes of the schema itself, before its
    attributes: a name and a valid short name. *)
Definition top_checks (c : CIType.t) : bool :=
  negb (is_empty (CIType.Name c)) && IsValidShortName (checked_ShortName c).

(** The attribute tree with every short name derived from its name. *)
Fixpoint normalize (att : CITypeAttribute) : CITypeAttribute :=
  mkCITypeAttribute (Name att) (GetShortName (Name att)) (Type_ att)
    (Description att) (map normalize (Children att))
    (Required att) (IsArray att) (MinCount att) (MaxCount att) (Singular att)
    (MinLength att) (MaxLength att) (Filters att) (Units att)
    (MinValue att) (MaxValue att).

(** The error messages of [validateAttributes] for the attribute of short
    name [short] and type [type], reached with the prefix [path]. *)
Definition invalid_characters (path short : string) : string :=
  "Invalid characters in CI Attribute '" ++ path ++ short ++ "'".

Definition no_type (path short : string) : string :=
  "No type specified for CI Attribute '" ++ path ++ short ++ "'".

Definition unsupported_format (type path short : string) : string :=
  "Unsupported attribute format '" ++ type ++ "' for CI Attribute '"
  ++ path ++ short ++ "'".

Definition not_a_group (path short : string) : string :=
  "CI Attribute '" ++ path ++ short ++ "' has children but is not a group attribute".

(** [reaches atts path att p]: the validation of the list [atts] with the
    prefix [path] comes to the attribute [att], at any depth, and the
    checks of [att] are made with the prefix [p].  It comes to a sibling
    when the siblings before it validate, and to the children of a group
    when moreover the group passes its own checks; the children are given
    the prefix that the recursive call passes. *)
Inductive reaches : CITypeAttributeList -> string -> CITypeAttribute -> string -> Prop :=
| reaches_sibling (before rest : CITypeAttributeList) (att : CITypeAttribute) (path : string) :
    error (validateAttributes before path) = None ->
    reaches (before ++ att :: rest)%list path att path
| reaches_child (before rest : CITypeAttributeList) (g att : CITypeAttribute)
    (path p : string) :
    error (validateAttributes before path) = None ->
    own_checks g = true ->
    Type_ g = "group" ->
    reaches (Children g) (GetShortName (Name g) ++ ".") att p ->
    reaches (before ++ g :: rest)%list path att p.

End Validation.

(** Every node of an attribute tree, the root first. *)
Fixpoint nodes (att : CITypeAttribute) : list CITypeAttribute :=
  att :: flat_map nodes (Children att).

(** The dotted path of an attribute of short name [short] below the groups
    of short names [ancestors], the outermost first. *)
Definition dotted_path (ancestors : list string) (short : string) : string :=
  fold_right (fun g rest => g ++ "." ++ rest) short ancestors.

Arguments validateAttribute GetShortName IsValidShortName {Format} GetAttributeFormat att path.
Arguments validateAttributes GetShortName IsValidShortName {Format} GetAttributeFormat atts path.
Arguments Validate GetShortName IsValidShortName {Format} GetAttributeFormat c.
Arguments own_checks GetShortName IsValidShortName {Format} GetAttributeFormat att.
Arguments reaches GetShortName IsValidShortName {Format} GetAttributeFormat _ _ _ _.

(** ** Name normalisation *)

Section NameNormalizer.

(** The separators of the identifier alphabet (a policy constant). *)
Variable is_separator : ascii -> bool.

(** The identifier alphabet: ASCII letters, digits and the separators. *)
Definition in_alphabet (c : ascii) : bool :=
  is_upper c || is_lower c || is_digit c || is_separator c.

(** Modelled from the spec: [GetShortName], whose source file is not among
    those embedded here.  It lower-cases the input and strips the
    characters outside the permitted identifier alphabet. *)
Definition GetShortName (name : string) : string :=
  filter_string in_alphabet (ToLower name).

(** Modelled from the spec: [IsValidShortName], whose source file is not
    among those embedded here.  It re-checks the same alphabet: every
    character of the short name is in it. *)
Definition IsValidShortName (s : string) : bool :=
  forallb_string in_alphabet s.

End NameNormalizer.

(** A name made of ASCII letters and digits only. *)
Definition alphanumeric (s : string) : bool :=
  forallb_string (fun c => is_upper c || is_lower c || is_digit c) s.

(** The separators used in the examples: dash and underscore. *)
Definition dash_or_underscore (c : ascii) : bool :=
  Ascii.eqb c "-" || Ascii.eqb c "_".

(** ** Format registry *)

(** The built-in attribute formats. *)
Inductive AttributeFormat : Type :=
| StringFormat
| NumberFormat
| BooleanFormat
| TimestampFormat
| GroupFormat.

(** Modelled from the spec: the format registry, whose source file is not
    among those embedded here.  Each built-in format is registered once
    under its name. *)
Definition registry : list (string * AttributeFormat) :=
  [ ("string", StringFormat); ("number", NumberFormat);
    ("boolean", BooleanFormat); ("timestamp", TimestampFormat);
    ("group", GroupFormat) ].

(** Modelled from the spec: [GetAttributeFormat], the lookup of a format
    name in the registry; an unregistered name gives [None] ([nil]). *)
Definition GetAttributeFormat (name : string) : option AttributeFormat :=
  option_map snd (find (fun e => String.eqb (fst e) name) registry).

(** ** The boolean format *)

(** The values a validator receives in its in/out cell: a boolean, a
    string, or a number, a Go [int] or a [float64]. *)
Inductive Value : Type :=
| VBool (b : bool)
| VString (s : string)
| VInt (n : Z)
| VFloat (f : float).


(** [v != 0] for a number [v]. *)
Definition nonzero (v : Value) : bool :=
  match v with
  | VInt n => negb (n =? 0)%Z
  | VFloat f => negb (PrimFloat.eqb f 0%float)
  | VBool _ | VString _ => false
  end.

(** [v > 0] for a number [v]. *)
Definition positive (v : Value) : bool :=
  match v with
  | VInt n => (0 <? n)%Z
  | VFloat f => PrimFloat.ltb 0%float f
  | VBool _ | VString _ => false
  end.

(** Modelled from the spec: [Validate] of the boolean format, whose source
    file is not among those embedded here, with the rule [of_number] for
    numbers left open.  It refuses a definition of another type, passes a
    native boolean, reads the strings "true" and "false" in any case, maps
    a number with [of_number], and replaces the value by the native
    boolean. *)
Definition BooleanFormat_Validate_with (of_number : Value -> bool)
  (att : CITypeAttribute) (value : Value) : outcome Value :=
  if negb (String.eqb (Type_ att) "boolean") then
    (value, Some "Attribute type is not 'boolean'")
  else
    match value with
    | VBool b => (VBool b, None)
    | VString s =>
        if String.eqb (ToLower s) "true" then (VBool true, None)
        else if String.eqb (ToLower s) "false" then (VBool false, None)
        else (value, Some "Not a boolean value")
    | VInt _ | VFloat _ => (VBool (of_number value), None)
    end.

(** The attribute definition of [TestBooleanFormat]. *)
Definition boolean_test_attribute : CITypeAttribute :=
  attribute "Test" "" "boolean" [].

(** [TestBooleanFormat] on a validator [v]: whether the test passes.  For
    the native booleans it asks for no error; for the strings "TRUE" and
    "False" and the numbers [10] and [-10] it asks for no error and for
    the native boolean it names; for the other string it asks for an
    error. *)
Definition TestBooleanFormat (v : CITypeAttribute -> Value -> outcome Value) : bool :=
  let att := boolean_test_attribute in
  let ok (x : Value) :=
    match error (v att x) with None => true | Some _ => false end in
  let gives (x : Value) (expect : bool) :=
    match v att x with
    | (VBool b, None) => Bool.eqb b expect
    | _ => false
    end in
  ok (VBool true) && ok (VBool false)
  && gives (VString "TRUE") true && gives (VString "False") false
  && negb (ok (VString "Not a truthy or falsy"))
  && gives (VInt 10) true && gives (VInt (-10)) false.

(** ** Password hashes *)

Section Crypto.

(** [sha256.Sum256] and the standard base64 encoding come from the Go
    library.  A decoding error is [None]. *)
Variable Sum256 : list Byte.byte -> list Byte.byte.
Variable EncodeToString : list Byte.byte -> string.
Variable DecodeString : string -> option (list Byte.byte).

(** [HashPasswordWithSalt]: the salt, then the password, are hashed; the
    salt is stored after the digest. *)
Definition HashPasswordWithSalt (password : string) (salt : list Byte.byte) : string :=
  let salted := (salt ++ list_byte_of_string password)%list in
  let sha := Sum256 salted in
  let hash := (sha ++ salt)%list in
  EncodeToString hash.

(** What a call of [CheckPassword] does: it returns a boolean, or panics
    (on a hash that does not decode, and on the slice [b[32:]] of a
    decoded hash shorter than 32 bytes). *)
Inductive result : Type :=
| Returns (b : bool)
| Panics.

(** [CheckPassword] *)
Definition CheckPassword (hash password : string) : result :=
  if is_empty password || is_empty hash then Returns false
  else
    match DecodeString hash with
    | None => Panics
    | Some b =>
        if (length b <? 32)%nat then Panics
        else
          let checkHash := HashPasswordWithSalt password (skipn 32 b) in
          Returns (String.eqb hash checkHash)
    end.

End Crypto.

(** ** Case variants *)

(** [t] is a case variant of [s]: the same bytes, but for the case of
    ASCII letters. *)
Fixpoint case_variant (s t : string) : bool :=
  match s, t with
  | EmptyString, EmptyString => true
  | String a s', String b t' =>
      (Ascii.eqb b a || Ascii.eqb b (upper_ascii a) || Ascii.eqb b (lower_ascii a))
      && case_variant s' t'
  | _, _ => false
  end.

(** ** Example schemas *)

Module Examples.

(** Validation with the modelled helpers. *)
Definition shortName : string -> string := GetShortName dash_or_underscore.
Definition validShortName : string -> bool := IsValidShortName dash_or_underscore.

Definition validateAttributes : CITypeAttributeList -> string -> outcome CITypeAttributeList :=
  validateAttributes shortName validShortName GetAttributeFormat.

Definition Validate : CIType.t -> outcome CIType.t :=
  Validate shortName validShortName GetAttributeFormat.

(** [Get] on names of ASCII bytes, which [strings.ToLower] lower-cases as
    [ToLower] does. *)
Definition Get : CITypeAttributeList -> string -> option CITypeAttribute :=
  Get ToLower.

(** A group with a leaf and a nested group. *)
Definition hardware : CITypeAttribute :=
  attribute "Hardware" "" "group"
    [ attribute "CPU Count" "cpus" "number" [];
      attribute "Disks" "" "group" [ attribute "Size" "" "number" [] ] ].

Definition server : CIType.t :=
  CIType.mk "Server" "" "A physical host"
    [ attribute "Host Name" "" "string" []; hardware ].

(** The attribute [Size], two groups deep, has no type. *)
Definition untyped_size : CIType.t :=
  CIType.mk "Server" "" ""
    [ attribute "Hardware" "" "group"
        [ attribute "Disks" "" "group" [ attribute "Size" "" "" [] ] ] ].

(** An attribute without a type, then one of a type that is not
    registered. *)
Definition untyped_then_unknown : CIType.t :=
  CIType.mk "Server" "" ""
    [ attribute "Host Name" "" "" []; attribute "Vendor" "" "i_dont_exist" [] ].

(** A leaf attribute with a child. *)
Definition leaf_with_child : CITypeAttribute :=
  attribute "Host Name" "" "string" [ attribute "Alias" "" "string" [] ].

(** A child of unregistered type below a top-level group. *)
Definition unknown_child : CIType.t :=
  CIType.mk "Server" "" ""
    [ attribute "Host Name" "" "string" [];
      attribute "Hardware" "" "group"
        [ attribute "CPU Count" "" "number" [];
          attribute "Vendor" "" "i_dont_exist" [] ] ].

(** Stand-ins for the library functions of [crypto.go], to run the
    password functions: a 32-byte digest (the last bytes of the message,
    the last one first, padded with zeros) and an encoding of bytes as
    the string of these bytes. *)
Definition digest (m : list Byte.byte) : list Byte.byte :=
  firstn 32 (rev m ++ repeat Byte.x00 32).

Definition encode (b : list Byte.byte) : string := string_of_list_byte b.

Definition decode (s : string) : option (list Byte.byte) :=
  Some (list_byte_of_string s).

Definition salt : list Byte.byte := repeat Byte.x2a 32.

End Examples.

(** ** The callers of the password functions *)

(** What a call that may panic does. *)
Inductive call (A : Type) : Type :=
| Done (a : A)
| Panic.

Arguments Done {A} a.
Arguments Panic {A}.

Section CryptoCallers.

Variable Sum256 : list Byte.byte -> list Byte.byte.
Variable EncodeToString : list Byte.byte -> string.

(** [rand.Read] on a buffer of the given length: the bytes it fills the
    buffer with, or [None] when it returns an error. *)
Variable rand_Read : nat -> option (list Byte.byte).

(** The users of [GenerateApiKey], of which only the e-mail address is
    read. *)
Variable User : Type.
Variable Email : User -> string.

(** [RandomSalt]: 32 random bytes; an error of the random source is a
    panic. *)
Definition RandomSalt : call (list Byte.byte) :=
  match rand_Read 32 with
  | Some salt => Done salt
  | None => Panic
  end.

(** [HashPassword]: the empty password has the empty hash, and no salt is
    drawn for it. *)
Definition HashPassword (password : string) : call string :=
  if is_empty password then Done ""
  else
    match RandomSalt with
    | Done salt => Done (HashPasswordWithSalt Sum256 EncodeToString password salt)
    | Panic => Panic
    end.

(** A byte that the expression [[^a-zA-Z0-9]+] does not match. *)
Definition is_alphanumeric (c : ascii) : bool :=
  is_lower c || is_upper c || is_digit c.

(** [GenerateApiKey]: the hash of the e-mail address without the bytes that
    are not letters or digits, cut to 32 bytes.  The slice [hash[:32]] of a
    shorter string is a panic. *)
Definition GenerateApiKey (user : User) : call string :=
  if is_empty (Email user) then Done ""
  else
    match HashPassword (Email user) with
    | Panic => Panic
    | Done hash =>
        let hash := filter_string is_alphanumeric hash in
        if (String.length hash <? 32)%nat then Panic
        else Done (substring 0 32 hash)
    end.

End CryptoCallers.

Arguments GenerateApiKey Sum256 EncodeToString rand_Read {User} Email user.

(** ** The configuration singleton *)

Module Configuration.

Module DatabaseConfig.

(** [DatabaseConfig] *)
Record t : Type := mk {
  Driver : string;
  Servers : list string;
  Timeout : Z;
  Database : string;
  Username : string;
  Password : string
}.

End DatabaseConfig.

(** [Config] *)
Record Config : Type := mkConfig {
  Database : DatabaseConfig.t
}.

(** The two package variables: the path of the configuration file and the
    singleton, [None] for the [nil] pointer. *)
Record globals : Type := mkGlobals {
  confFilePath : string;
  config : option Config
}.

(** The package variables when the program starts. *)
Definition initial : globals := mkGlobals "" None.

(** The configuration before the file is applied. *)
Definition defaults : Config :=
  mkConfig (DatabaseConfig.mk "mongodb" [] 0 "alexandria" "" "").

Section Files.

(** The files as a call finds them.  [Stat path] tells whether [os.Stat]
    returns no error, [Open path] is the file opened or the error of
    [os.Open], and [Decode file c] is what the JSON decoder makes of the
    configuration [c] it is given to fill, or its error. *)
Variable File : Type.

Record FileSystem : Type := mkFileSystem {
  Stat : string -> bool;
  Open : string -> string + File;
  Decode : File -> Config -> string + Config
}.

(** [GetConfig]: the package variables as the call leaves them, and the
    error or the configuration returned. *)
Definition GetConfig (fs : FileSystem) (g : globals) : globals * (string + Config) :=
  match config g with
  | Some c => (g, inr c)
  | None =>
      let selected : string + string :=
        if is_empty (confFilePath g) then
          if Stat fs "./config.json" then inr "./config.json"
          else if Stat fs "/etc/alexandria/config.json" then inr "/etc/alexandria/config.json"
          else inl "no configuration file was found"
        else inr (confFilePath g) in
      match selected with
      | inl err => (g, inl err)
      | inr path =>
          match Open fs path with
          | inl err => (mkGlobals path None, inl err)
          | inr confFile =>
              match Decode fs confFile defaults with
              | inl err => (mkGlobals path None, inl err)
              | inr c => (mkGlobals path (Some c), inr c)
              end
          end
      end
  end.

(** [GetConfigFromFile] *)
Definition GetConfigFromFile (fs : FileSystem) (path : string) (g : globals)
  : globals * (string + Config) :=
  match config g with
  | Some _ =>
      (g, inl "a configuration file was specified but configuration is already loaded")
  | None => GetConfig fs (mkGlobals path (config g))
  end.

(** A call of the package. *)
Inductive request : Type :=
| CallGetConfig
| CallGetConfigFromFile (path : string).

Definition serve (fs : FileSystem) (r : request) (g : globals) : globals * (string + Config) :=
  match r with
  | CallGetConfig => GetConfig fs g
  | CallGetConfigFromFile path => GetConfigFromFile fs path g
  end.

(** The package variables after a sequence of calls, each with the files
    as it finds them. *)
Fixpoint after (calls : list (FileSystem * request)) (g : globals) : globals :=
  match calls with
  | [] => g
  | (fs, r) :: rest => after rest (fst (serve fs r g))
  end.

(** The property of the package variables that every call keeps, with
    respect to the files [seen] at the calls so far: a configuration that
    is loaded has a path, and was decoded from the file at that path. *)
Definition loaded_from (seen : list FileSystem) (g : globals) : Prop :=
  forall c, config g = Some c ->
    confFilePath g <> ""
    /\ exists fs f, In fs seen
                    /\ Open fs (confFilePath g) = inr f
                    /\ Decode fs f defaults = inr c.

End Files.

Arguments Stat {File} f path.
Arguments Open {File} f path.
Arguments Decode {File} f file c.
Arguments GetConfig {File} fs g.
Arguments GetConfigFromFile {File} fs path g.
Arguments serve {File} fs r g.
Arguments after {File} calls g.
Arguments loaded_from {File} seen g.

End Configuration.

(** ** Vocabulary for further properties of validation *)

(** An attribute that is acceptable by itself: it passes its own checks
    and, unless it is a group, has no children. *)
Definition acceptable (GetShortName : string -> string) (IsValidShortName : string -> bool)
  {Format : Type} (GetAttributeFormat : string -> option Format)
  (att : CITypeAttribute) : bool :=
  own_checks GetShortName IsValidShortName GetAttributeFormat att
  && (String.eqb (Type_ att) "group"
      || match Children att with [] => true | _ :: _ => false end).

(** The attribute tree with every short name replaced by the empty
    string: what is left of a tree when its short names are set aside. *)
Definition without_ShortNames : CITypeAttribute -> CITypeAttribute :=
  normalize (fun _ => "").

(** ** Sample data for the further properties *)

Module Samples.

(** A random source that gives the letter [a] at every byte, and one
    that fails. *)
Definition letters (n : nat) : option (list Byte.byte) := Some (repeat Byte.x61 n).
Definition no_entropy (n : nat) : option (list Byte.byte) := None.

(** A boolean validator that passes [TestBooleanFormat]: it takes the
    numbers above zero for [true]. *)
Definition by_sign : CITypeAttribute -> Value -> outcome Value :=
  BooleanFormat_Validate_with positive.

(** The boolean validator that takes every number but zero for [true]. *)
Definition by_nonzero : CITypeAttribute -> Value -> outcome Value :=
  BooleanFormat_Validate_with nonzero.


(** An attribute of unregistered type three groups deep. *)
Definition unknown_deep : CIType.t :=
  CIType.mk "Server" "" ""
    [ attribute "Hardware" "" "group"
        [ attribute "Disks" "" "group"
            [ attribute "Partitions" "" "group"
                [ attribute "Label" "" "string" [];
                  attribute "File System" "" "i_dont_exist" [] ] ] ] ].

(** A schema that comes with short names of its own. *)
Definition labelled : CIType.t :=
  CIType.mk "Server" "SRV" "A physical host"
    [ attribute "Host Name" "HOST" "string" [];
      attribute "Hardware" "hw" "group" [ attribute "CPU Count" "cpus" "number" [] ] ].

(** Files: only "/etc/alexandria/config.json" exists; a file holding
    "{}" decodes to the configuration it is applied to. *)
Definition etc_only : Configuration.FileSystem string :=
  Configuration.mkFileSystem string
    (fun path => String.eqb path "/etc/alexandria/config.json")
    (fun path =>
       if String.eqb path "/etc/alexandria/config.json" then inr "{}"
       else inl ("open " ++ path ++ ": no such file or directory"))
    (fun file c => if String.eqb file "{}" then inr c else inl "unexpected end of JSON input").

(** Files: "./config.json" exists as well, and is not valid JSON. *)
Definition broken_local : Configuration.FileSystem string :=
  Configuration.mkFileSystem string
    (fun path => String.eqb path "./config.json"
                 || String.eqb path "/etc/alexandria/config.json")
    (fun path =>
       if String.eqb path "./config.json" then inr "{"
       else if String.eqb path "/etc/alexandria/config.json" then inr "{}"
       else inl ("open " ++ path ++ ": no such file or directory"))
    (fun file c => if String.eqb file "{}" then inr c else inl "unexpected end of JSON input").

(** Files: none. *)
Definition no_files : Configuration.FileSystem string :=
  Configuration.mkFileSystem string
    (fun _ => false)
    (fun path => inl ("open " ++ path ++ ": no such file or directory"))
    (fun file c => inl "unexpected end of JSON input").

End Samples.

(** * Properties *)

(** ** Strings *)

Lemma is_empty_true (s : string) : is_empty s = true <-> s = "".
Proof. destruct s; simpl; split; congruence. Qed.

Lemma is_empty_false (s : string) : is_empty s = false <-> s <> "".
Proof. destruct s; simpl; split; congruence. Qed.

Lemma append_assoc (a b c : string) : (a ++ b) ++ c = a ++ (b ++ c).
Proof. induction a as [|x a IH]; cbn; [reflexivity|now rewrite IH]. Qed.

Lemma lower_ascii_idempotent (c : ascii) : lower_ascii (lower_ascii c) = lower_ascii c.
Proof. destruct c as [[] [] [] [] [] [] [] []]; reflexivity. Qed.

Lemma lower_upper_ascii (c : ascii) : lower_ascii (upper_ascii c) = lower_ascii c.
Proof. destruct c as [[] [] [] [] [] [] [] []]; reflexivity. Qed.

(** Only the letters [A] to [Z] change. *)
Example ToLower_ASCII :
  ToLower "@AZ[ `az{ 09 Host-Name_42" = "@az[ `az{ 09 host-name_42".
Proof. reflexivity. Qed.

Lemma ToLower_idempotent (s : string) : ToLower (ToLower s) = ToLower s.
Proof.
  unfold ToLower. induction s as [|c s IH]; cbn [map_string]; [reflexivity|].
  now rewrite lower_ascii_idempotent, IH.
Qed.

Lemma ToLower_ToUpper (s : string) : ToLower (ToUpper s) = ToLower s.
Proof.
  unfold ToLower, ToUpper. induction s as [|c s IH]; cbn [map_string]; [reflexivity|].
  now rewrite lower_upper_ascii, IH.
Qed.

(** ** Schema validation *)

Section ValidationProperties.

Variable GetShortName : string -> string.
Variable IsValidShortName : string -> bool.
Variable Format : Type.
Variable GetAttributeFormat : string -> option Format.

Local Abbreviation reaches_def := reaches.
Local Abbreviation validateAttribute_def := validateAttribute.
Local Abbreviation validateAttributes_def := validateAttributes.
Local Abbreviation Validate_def := Validate.
Local Abbreviation own_checks_def := own_checks.
Local Abbreviation normalize_def := normalize.
Local Abbreviation checked_ShortName_def := checked_ShortName.
Local Abbreviation top_checks_def := top_checks.

Local Abbreviation validateAttribute :=
  (validateAttribute GetShortName IsValidShortName GetAttributeFormat).
Local Abbreviation validateAttributes :=
  (validateAttributes GetShortName IsValidShortName GetAttributeFormat).
Local Abbreviation Validate :=
  (Validate GetShortName IsValidShortName GetAttributeFormat).
Local Abbreviation own_checks :=
  (own_checks GetShortName IsValidShortName GetAttributeFormat).
Local Abbreviation normalize := (normalize GetShortName).
Local Abbreviation checked_ShortName := (checked_ShortName GetShortName).
Local Abbreviation top_checks := (top_checks GetShortName IsValidShortName).

(** The inner loop of [validateAttribute] is [validateAttributes] on the
    children: one iteration of the loop, with the recursive call spelled
    as in the source. *)
Lemma validateAttribute_unfold (att : CITypeAttribute) (path : string) :
  validateAttribute att path =
  if is_empty (Name att) then (att, Some "No attribute name specified")
  else
    let att1 := set_ShortName att (GetShortName (Name att)) in
    if negb (IsValidShortName (ShortName att1)) then
      (att1, Some (invalid_characters path (ShortName att1)))
    else if is_empty (Type_ att1) then
      (att1, Some (no_type path (ShortName att1)))
    else
      match GetAttributeFormat (Type_ att1) with
      | None => (att1, Some (unsupported_format (Type_ att1) path (ShortName att1)))
      | Some _ =>
          if String.eqb (Type_ att1) "group" then
            let r := validateAttributes (Children att1) (ShortName att1 ++ ".") in
            (set_Children att1 (state r), error r)
          else if (0 <? length (Children att1))%nat then
            (att1, Some (not_a_group path (ShortName att1)))
          else (att1, None)
      end.
Proof.
  destruct att as [n sn t d ch rq ia mic mac sg mil mal fl un miv mav].
  cbn [validateAttribute_def Name ShortName Type_ Children set_ShortName].
  destruct (is_empty n); [reflexivity|].
  destruct (negb (IsValidShortName (GetShortName n))); [reflexivity|].
  destruct (is_empty t); [reflexivity|].
  destruct (GetAttributeFormat t); [|reflexivity].
  destruct (String.eqb t "group"); [|reflexivity].
  match goal with
  | |- (set_Children _ (state (?f ch)), error (?f ch)) = _ =>
      assert (E : forall l, f l = validateAttributes l (GetShortName n ++ "."))
  end.
  { induction l as [|a l IH]; [reflexivity|].
    cbn [validateAttributes_def]. rewrite <- IH. reflexivity. }
  rewrite E. reflexivity.
Qed.

Lemma validateAttributes_cons (a : CITypeAttribute) (l : CITypeAttributeList) (path : string) :
  validateAttributes (a :: l) path =
  match error (validateAttribute a path) with
  | Some err => (state (validateAttribute a path) :: l, Some err)
  | None =>
      (state (validateAttribute a path) :: state (validateAttributes l path),
       error (validateAttributes l path))
  end.
Proof. reflexivity. Qed.

Lemma validateAttributes_single (a : CITypeAttribute) (path : string) :
  error (validateAttributes [a] path) = error (validateAttribute a path).
Proof.
  rewrite validateAttributes_cons.
  destruct (error (validateAttribute a path)); reflexivity.
Qed.

(** The loop stops at the first sibling that fails, and leaves the later
    ones untouched. *)
Lemma validateAttributes_app (l1 l2 : CITypeAttributeList) (path : string) :
  validateAttributes (l1 ++ l2)%list path =
  match error (validateAttributes l1 path) with
  | Some err => ((state (validateAttributes l1 path) ++ l2)%list, Some err)
  | None =>
      ((state (validateAttributes l1 path) ++ state (validateAttributes l2 path))%list,
       error (validateAttributes l2 path))
  end.
Proof.
  induction l1 as [|a l1 IH].
  - cbn. now destruct (validateAttributes_def _ _ _ l2 path).
  - rewrite <- app_comm_cons, !validateAttributes_cons.
    destruct (error (validateAttribute a path)) as [e|]; [reflexivity|].
    rewrite IH.
    destruct (error (validateAttributes l1 path)); reflexivity.
Qed.

(** A list validates exactly when each of its attributes does. *)
Lemma validateAttributes_ok_iff (l : CITypeAttributeList) (path : string) :
  error (validateAttributes l path) = None <->
  Forall (fun a => error (validateAttribute a path) = None) l.
Proof.
  induction l as [|a l IH].
  - split; [constructor | reflexivity].
  - rewrite validateAttributes_cons.
    destruct (error (validateAttribute a path)) as [e|] eqn:Ea.
    + split; [discriminate|]. intros H. inversion H; congruence.
    + cbn [error snd]. rewrite IH. split.
      * intros H. now constructor.
      * intros H. now inversion H.
Qed.

(** What an attribute is left as, and whether it validates, do not depend
    on the prefix it is reached with. *)
Lemma validateAttribute_path_state (att : CITypeAttribute) (p q : string) :
  state (validateAttribute att p) = state (validateAttribute att q).
Proof.
  rewrite !validateAttribute_unfold. cbv zeta.
  cbn [Name ShortName Type_ Children set_ShortName].
  destruct (is_empty (Name att)); [reflexivity|].
  destruct (IsValidShortName (GetShortName (Name att))); [|reflexivity].
  destruct (is_empty (Type_ att)); [reflexivity|].
  destruct (GetAttributeFormat (Type_ att)); [|reflexivity].
  destruct (String.eqb (Type_ att) "group"); [reflexivity|].
  destruct (0 <? length (Children att))%nat; reflexivity.
Qed.

Lemma validateAttribute_path_ok (att : CITypeAttribute) (p q : string) :
  error (validateAttribute att p) = None -> error (validateAttribute att q) = None.
Proof.
  rewrite !validateAttribute_unfold. cbv zeta.
  cbn [Name ShortName Type_ Children set_ShortName].
  destruct (is_empty (Name att)); [discriminate|].
  destruct (IsValidShortName (GetShortName (Name att))); [|discriminate].
  destruct (is_empty (Type_ att)); [discriminate|].
  destruct (GetAttributeFormat (Type_ att)); [|discriminate].
  destruct (String.eqb (Type_ att) "group"); [trivial|].
  destruct (0 <? length (Children att))%nat; [discriminate|trivial].
Qed.

(** *** The checks of one attribute, in their order *)

Lemma validateAttribute_no_name (att : CITypeAttribute) (path : string) :
  Name att = "" ->
  validateAttribute att path = (att, Some "No attribute name specified").
Proof.
  intros H. rewrite validateAttribute_unfold.
  apply is_empty_true in H. now rewrite H.
Qed.

Lemma validateAttribute_invalid_characters (att : CITypeAttribute) (path : string) :
  Name att <> "" ->
  IsValidShortName (GetShortName (Name att)) = false ->
  validateAttribute att path =
  (set_ShortName att (GetShortName (Name att)),
   Some (invalid_characters path (GetShortName (Name att)))).
Proof.
  intros Hn Hv. rewrite validateAttribute_unfold.
  apply is_empty_false in Hn. rewrite Hn. cbv zeta. cbn [ShortName set_ShortName].
  now rewrite Hv.
Qed.

Lemma validateAttribute_no_type (att : CITypeAttribute) (path : string) :
  Name att <> "" ->
  IsValidShortName (GetShortName (Name att)) = true ->
  Type_ att = "" ->
  validateAttribute att path =
  (set_ShortName att (GetShortName (Name att)),
   Some (no_type path (GetShortName (Name att)))).
Proof.
  intros Hn Hv Ht. rewrite validateAttribute_unfold.
  apply is_empty_false in Hn. rewrite Hn. cbv zeta.
  cbn [ShortName Type_ set_ShortName]. rewrite Hv, Ht. reflexivity.
Qed.

Lemma validateAttribute_unsupported (att : CITypeAttribute) (path : string) :
  Name att <> "" ->
  IsValidShortName (GetShortName (Name att)) = true ->
  Type_ att <> "" ->
  GetAttributeFormat (Type_ att) = None ->
  validateAttribute att path =
  (set_ShortName att (GetShortName (Name att)),
   Some (unsupported_format (Type_ att) path (GetShortName (Name att)))).
Proof.
  intros Hn Hv Ht Hf. rewrite validateAttribute_unfold.
  apply is_empty_false in Hn, Ht. rewrite Hn. cbv zeta.
  cbn [ShortName Type_ set_ShortName]. rewrite Hv, Ht, Hf. reflexivity.
Qed.

Lemma own_checks_true (att : CITypeAttribute) :
  own_checks att = true <->
  Name att <> "" /\ IsValidShortName (GetShortName (Name att)) = true
  /\ Type_ att <> "" /\ GetAttributeFormat (Type_ att) <> None.
Proof.
  unfold own_checks_def.
  rewrite !andb_true_iff, !negb_true_iff, !is_empty_false.
  destruct (GetAttributeFormat (Type_ att)); intuition congruence.
Qed.

Lemma validateAttribute_group (att : CITypeAttribute) (path : string) :
  own_checks att = true ->
  Type_ att = "group" ->
  validateAttribute att path =
  (let r := validateAttributes (Children att) (GetShortName (Name att) ++ ".") in
   (set_Children (set_ShortName att (GetShortName (Name att))) (state r), error r)).
Proof.
  intros Ho Hg. apply own_checks_true in Ho. destruct Ho as (Hn & Hv & Ht & Hf).
  rewrite validateAttribute_unfold.
  apply is_empty_false in Hn, Ht. rewrite Hn. cbv zeta.
  cbn [ShortName Type_ Children set_ShortName]. rewrite Hv, Ht.
  destruct (GetAttributeFormat (Type_ att)); [|congruence].
  rewrite Hg. reflexivity.
Qed.

Lemma validateAttribute_not_group (att : CITypeAttribute) (path : string) :
  own_checks att = true ->
  Type_ att <> "group" ->
  validateAttribute att path =
  (set_ShortName att (GetShortName (Name att)),
   if (0 <? length (Children att))%nat
   then Some (not_a_group path (GetShortName (Name att)))
   else None).
Proof.
  intros Ho Hg. apply own_checks_true in Ho. destruct Ho as (Hn & Hv & Ht & Hf).
  rewrite validateAttribute_unfold.
  apply is_empty_false in Hn, Ht. rewrite Hn. cbv zeta.
  cbn [ShortName Type_ Children set_ShortName]. rewrite Hv, Ht.
  destruct (GetAttributeFormat (Type_ att)); [|congruence].
  apply String.eqb_neq in Hg. rewrite Hg.
  destruct (0 <? length (Children att))%nat; reflexivity.
Qed.

(** An attribute that fails one of its own checks is refused. *)
Lemma validateAttribute_own_checks_false (att : CITypeAttribute) (path : string) :
  own_checks att = false -> error (validateAttribute att path) <> None.
Proof.
  intros Ho. rewrite validateAttribute_unfold. cbv zeta.
  cbn [ShortName Type_ Children set_ShortName].
  unfold own_checks_def in Ho.
  destruct (is_empty (Name att)); [discriminate|].
  destruct (IsValidShortName (GetShortName (Name att))); [|discriminate].
  destruct (is_empty (Type_ att)); [discriminate|].
  destruct (GetAttributeFormat (Type_ att)); [discriminate Ho|discriminate].
Qed.

(** *** Groups and children *)

(** C3.  An attribute that passes the checks of its own name, short name
    and type, and has children: if its type is "group", validating it
    succeeds exactly when validating each child on its own succeeds
    (whatever prefix [q] the child is validated with); if its type is not
    "group", validating it fails with the error "CI Attribute
    '<path><short name>' has children but is not a group attribute". *)
Theorem children_validation (att : CITypeAttribute) (path q : string) :
  own_checks att = true ->
  Children att <> [] ->
  (Type_ att = "group" ->
   (error (validateAttributes [att] path) = None <->
    forall child, In child (Children att) ->
                  error (validateAttributes [child] q) = None))
  /\ (Type_ att <> "group" ->
      error (validateAttributes [att] path) =
      Some (not_a_group path (GetShortName (Name att)))).
Proof.
  intros Ho Hc. rewrite validateAttributes_single. split; intros Hg.
  - rewrite (validateAttribute_group _ _ Ho Hg). cbv zeta. cbn [error snd].
    rewrite validateAttributes_ok_iff, Forall_forall.
    split; intros H child Hin.
    + rewrite validateAttributes_single.
      eapply validateAttribute_path_ok, H, Hin.
    + eapply validateAttribute_path_ok. rewrite <- validateAttributes_single.
      apply H, Hin.
  - rewrite (validateAttribute_not_group _ _ Ho Hg). cbn [error snd].
    destruct (Children att); [congruence|reflexivity].
Qed.

(** *** Normalisation of the short names *)


Lemma set_ShortName_leaf (att : CITypeAttribute) :
  Children att = [] ->
  set_ShortName att (GetShortName (Name att)) = normalize att.
Proof. destruct att; cbn. intros ->. reflexivity. Qed.

Lemma set_Children_normalize (att : CITypeAttribute) :
  set_Children (set_ShortName att (GetShortName (Name att)))
               (map normalize (Children att)) = normalize att.
Proof. destruct att; reflexivity. Qed.

(** A validation that succeeds leaves the tree normalised. *)
Lemma validateAttribute_ok_normalize (att : CITypeAttribute) :
  forall path, error (validateAttribute att path) = None ->
               state (validateAttribute att path) = normalize att.
Proof.
  induction att as [att IH] using CITypeAttribute_tree_ind. intros path.
  destruct (own_checks att) eqn:Ho.
  2:{ intros H. now apply validateAttribute_own_checks_false with (path := path) in Ho. }
  destruct (String.eqb_spec (Type_ att) "group") as [Hg|Hg].
  - rewrite (validateAttribute_group _ _ Ho Hg). cbv zeta. cbn [error state fst snd].
    generalize (GetShortName (Name att) ++ ".") as p. intros p Hok.
    rewrite <- set_Children_normalize. f_equal.
    revert Hok. induction IH as [|a l Ha _ IHl]; [reflexivity|].
    rewrite validateAttributes_cons.
    destruct (error (validateAttribute a p)) eqn:Ea; [discriminate|].
    cbn [error state fst snd map]. intros Hok.
    now rewrite (Ha p Ea), (IHl Hok).
  - rewrite (validateAttribute_not_group _ _ Ho Hg). cbn [error state fst snd].
    destruct (Children att) eqn:Hc; [|discriminate].
    intros _. now apply set_ShortName_leaf.
Qed.

Lemma validateAttributes_ok_normalize (atts : CITypeAttributeList) (path : string) :
  error (validateAttributes atts path) = None ->
  state (validateAttributes atts path) = map normalize atts.
Proof.
  induction atts as [|a l IH]; [reflexivity|].
  rewrite validateAttributes_cons.
  destruct (error (validateAttribute a path)) eqn:Ea; [discriminate|].
  cbn [error state fst snd map]. intros Hok.
  now rewrite (validateAttribute_ok_normalize _ _ Ea), (IH Hok).
Qed.



(** *** The schema itself *)

Lemma Validate_no_name (c : CIType.t) :
  CIType.Name c = "" -> Validate c = (c, Some "No CI Type name specified").
Proof.
  intros H. unfold Validate_def. apply is_empty_true in H. now rewrite H.
Qed.

Lemma Validate_named (c : CIType.t) :
  CIType.Name c <> "" ->
  Validate c =
  (let c1 := CIType.set_ShortName c (checked_ShortName c) in
   if IsValidShortName (checked_ShortName c) then
     let r := validateAttributes (CIType.Attributes c) "" in
     (CIType.set_Attributes c1 (state r), error r)
   else (c1, Some "Invalid characters in CI Type name")).
Proof.
  intros H. unfold Validate_def, checked_ShortName_def.
  apply is_empty_false in H. rewrite H. cbv zeta.
  destruct c as [n sn d atts]. cbn [CIType.Name CIType.ShortName].
  destruct sn as [|ch sn]; cbn; destruct (IsValidShortName _); reflexivity.
Qed.

Lemma Validate_top_checks (c : CIType.t) :
  top_checks c = true ->
  error (Validate c) = error (validateAttributes (CIType.Attributes c) "").
Proof.
  unfold top_checks_def. rewrite andb_true_iff, negb_true_iff, is_empty_false.
  intros [Hn Hv]. rewrite (Validate_named _ Hn). cbv zeta. now rewrite Hv.
Qed.


(** *** Fail-fast order *)

(** C6.  Validation returns one error, the first it meets.  The siblings
    are visited in sequence order: the loop over [l1 ++ l2] stops in [l1]
    if [l1] fails, leaving [l2] untouched, and otherwise goes on with
    [l2].  For one attribute the checks are made in the order: name,
    derived short name, type, type known to the registry, children (of a
    group: the children are validated, and their first error is returned;
    of another type: there must be none); only then is the next sibling
    looked at.  [Validate] checks the name of the schema, then its short
    name, then the attributes. *)
Theorem fail_fast (att : CITypeAttribute) (rest l1 l2 : CITypeAttributeList)
  (path : string) (c : CIType.t) :
  validateAttributes (l1 ++ l2)%list path =
    match error (validateAttributes l1 path) with
    | Some err => ((state (validateAttributes l1 path) ++ l2)%list, Some err)
    | None =>
        ((state (validateAttributes l1 path) ++ state (validateAttributes l2 path))%list,
         error (validateAttributes l2 path))
    end
  /\ (Name att = "" ->
      error (validateAttributes (att :: rest) path) = Some "No attribute name specified")
  /\ (Name att <> "" -> IsValidShortName (GetShortName (Name att)) = false ->
      error (validateAttributes (att :: rest) path) =
      Some (invalid_characters path (GetShortName (Name att))))
  /\ (Name att <> "" -> IsValidShortName (GetShortName (Name att)) = true ->
      Type_ att = "" ->
      error (validateAttributes (att :: rest) path) =
      Some (no_type path (GetShortName (Name att))))
  /\ (Name att <> "" -> IsValidShortName (GetShortName (Name att)) = true ->
      Type_ att <> "" -> GetAttributeFormat (Type_ att) = None ->
      error (validateAttributes (att :: rest) path) =
      Some (unsupported_format (Type_ att) path (GetShortName (Name att))))
  /\ (own_checks att = true -> Type_ att <> "group" -> Children att <> [] ->
      error (validateAttributes (att :: rest) path) =
      Some (not_a_group path (GetShortName (Name att))))
  /\ (own_checks att = true -> Type_ att = "group" ->
      forall err,
        error (validateAttributes (Children att) (GetShortName (Name att) ++ ".")) = Some err ->
        error (validateAttributes (att :: rest) path) = Some err)
  /\ (error (validateAttributes [att] path) = None ->
      error (validateAttributes (att :: rest) path) = error (validateAttributes rest path))
  /\ (CIType.Name c = "" -> error (Validate c) = Some "No CI Type name specified")
  /\ (CIType.Name c <> "" -> IsValidShortName (checked_ShortName c) = false ->
      error (Validate c) = Some "Invalid characters in CI Type name")
  /\ (CIType.Name c <> "" -> IsValidShortName (checked_ShortName c) = true ->
      error (Validate c) = error (validateAttributes (CIType.Attributes c) "")).
Proof.
  split; [apply validateAttributes_app|].
  rewrite validateAttributes_single, validateAttributes_cons.
  repeat split.
  - intros H. now rewrite (validateAttribute_no_name _ _ H).
  - intros H1 H2. now rewrite (validateAttribute_invalid_characters _ _ H1 H2).
  - intros H1 H2 H3. now rewrite (validateAttribute_no_type _ _ H1 H2 H3).
  - intros H1 H2 H3 H4. now rewrite (validateAttribute_unsupported _ _ H1 H2 H3 H4).
  - intros H1 H2 H3. rewrite (validateAttribute_not_group _ _ H1 H2). cbn [error snd].
    destruct (Children att); [congruence|reflexivity].
  - intros H1 H2 err H3. rewrite (validateAttribute_group _ _ H1 H2). cbv zeta.
    cbn [error snd]. now rewrite H3.
  - intros H. now rewrite H.
  - intros H. now rewrite (Validate_no_name _ H).
  - intros H1 H2. rewrite (Validate_named _ H1). cbv zeta. now rewrite H2.
  - intros H1 H2. rewrite (Validate_named _ H1). cbv zeta. now rewrite H2.
Qed.

(** *** Types the registry does not know *)

(** An attribute reached after siblings that validate, with a name, a
    valid derived short name and a type that is not registered, stops the
    loop with the "Unsupported attribute format" error; the message names
    the type and, after the prefix the loop was given, the short name. *)
Lemma validateAttributes_unsupported
  (before rest : CITypeAttributeList) (att : CITypeAttribute) (path : string) :
  error (validateAttributes before path) = None ->
  Name att <> "" ->
  IsValidShortName (GetShortName (Name att)) = true ->
  Type_ att <> "" ->
  GetAttributeFormat (Type_ att) = None ->
  error (validateAttributes (before ++ att :: rest)%list path) =
  Some (unsupported_format (Type_ att) path (GetShortName (Name att))).
Proof.
  intros Hb H1 H2 H3 H4.
  rewrite validateAttributes_app, Hb. cbn [error snd].
  rewrite validateAttributes_cons, (validateAttribute_unsupported _ _ H1 H2 H3 H4).
  reflexivity.
Qed.

Lemma nodes_unfold (att : CITypeAttribute) :
  nodes att = att :: flat_map nodes (Children att).
Proof. destruct att; reflexivity. Qed.

(** A tree with a node of unregistered type never validates. *)
Lemma validateAttribute_unregistered_node (att : CITypeAttribute) :
  forall b path,
    In b (nodes att) -> Type_ b <> "" -> GetAttributeFormat (Type_ b) = None ->
    error (validateAttribute att path) <> None.
Proof.
  induction att as [att IH] using CITypeAttribute_tree_ind.
  intros b path Hin Ht Hf.
  destruct (own_checks att) eqn:Ho;
    [|now apply validateAttribute_own_checks_false].
  rewrite nodes_unfold in Hin. destruct Hin as [<-|Hin].
  { apply own_checks_true in Ho. tauto. }
  apply in_flat_map in Hin. destruct Hin as (child & Hchild & Hb).
  destruct (String.eqb_spec (Type_ att) "group") as [Hg|Hg].
  - rewrite (validateAttribute_group _ _ Ho Hg). cbv zeta. cbn [error snd].
    rewrite validateAttributes_ok_iff, Forall_forall. intros H.
    rewrite Forall_forall in IH.
    exact (IH child Hchild b _ Hb Ht Hf (H child Hchild)).
  - rewrite (validateAttribute_not_group _ _ Ho Hg). cbn [error snd].
    destruct (Children att); [contradiction|discriminate].
Qed.

(** At any depth: an attribute that validation reaches, with a name, a
    valid derived short name and a type that is not registered, is
    reported with the "Unsupported attribute format" error, which names
    its type and, after the prefix it is reached with, its short name. *)
Lemma reaches_unsupported (atts : CITypeAttributeList) (path : string)
  (att : CITypeAttribute) (p : string) :
  reaches_def GetShortName IsValidShortName GetAttributeFormat atts path att p ->
  Name att <> "" ->
  IsValidShortName (GetShortName (Name att)) = true ->
  Type_ att <> "" ->
  GetAttributeFormat (Type_ att) = None ->
  error (validateAttributes atts path) =
  Some (unsupported_format (Type_ att) p (GetShortName (Name att))).
Proof.
  intros R H1 H2 H3 H4.
  induction R as [before rest a path Hb | before rest g a path p Hb Hg Hgt _ IH].
  - now apply validateAttributes_unsupported.
  - rewrite validateAttributes_app, Hb. cbn [error snd].
    rewrite validateAttributes_cons, (validateAttribute_group _ _ Hg Hgt). cbv zeta.
    cbn [error snd]. now rewrite (IH H1 H2 H3 H4).
Qed.

(** The prefix an attribute is reached with: the one the list was given,
    for a sibling, and the short name of the enclosing group and a dot,
    for a child of a group. *)
Lemma reaches_prefix (atts : CITypeAttributeList) (path : string)
  (att : CITypeAttribute) (p : string) :
  reaches_def GetShortName IsValidShortName GetAttributeFormat atts path att p ->
  (p = path /\ In att atts)
  \/ exists g, In g (flat_map nodes atts) /\ Type_ g = "group"
               /\ In att (Children g) /\ p = GetShortName (Name g) ++ ".".
Proof.
  intros R.
  induction R as [before rest a path Hb | before rest g a path p Hb Hg Hgt _ IH].
  - left. split; [reflexivity|]. apply in_or_app. right. now left.
  - right. destruct IH as [[-> Hin]|(g' & Hin & Ht & Hc & ->)].
    + exists g. repeat split; try assumption.
      apply in_flat_map. exists g. split; [apply in_or_app; right; now left|].
      rewrite nodes_unfold. now left.
    + exists g'. repeat split; try assumption.
      apply in_flat_map. exists g. split; [apply in_or_app; right; now left|].
      rewrite nodes_unfold. now right.
Qed.

(** C7, as the code has it.  When validation reaches an attribute, at any
    depth, with a name, a valid derived short name and a non-empty type
    that the registry does not know (the schema passes its own checks,
    the attributes visited before it validate and the groups above it
    pass their own checks), [Validate] fails with "Unsupported attribute
    format '<type>' for CI Attribute '<prefix><short name>'", which names
    the type and the short name of the attribute after the prefix it is
    reached with.  For a top-level attribute the path named is its short
    name, and for a child of a top-level group it is the short name of the
    group, a dot, and the short name of the child.  And a schema with such
    an attribute anywhere in its tree is never accepted. *)
Theorem unsupported_format_reported
  (c : CIType.t) (before rest before' rest' : CITypeAttributeList)
  (att g b : CITypeAttribute) (p : string) :
  (top_checks c = true ->
   reaches_def GetShortName IsValidShortName GetAttributeFormat
     (CIType.Attributes c) "" att p ->
   Name att <> "" -> IsValidShortName (GetShortName (Name att)) = true ->
   Type_ att <> "" -> GetAttributeFormat (Type_ att) = None ->
   error (Validate c) =
   Some (unsupported_format (Type_ att) p (GetShortName (Name att))))
  /\ (top_checks c = true ->
      CIType.Attributes c = (before ++ att :: rest)%list ->
      error (validateAttributes before "") = None ->
      Name att <> "" -> IsValidShortName (GetShortName (Name att)) = true ->
      Type_ att <> "" -> GetAttributeFormat (Type_ att) = None ->
      error (Validate c) =
      Some (unsupported_format (Type_ att) ""
              (dotted_path [] (GetShortName (Name att)))))
  /\ (top_checks c = true ->
      CIType.Attributes c = (before ++ g :: rest)%list ->
      error (validateAttributes before "") = None ->
      own_checks g = true -> Type_ g = "group" ->
      Children g = (before' ++ att :: rest')%list ->
      error (validateAttributes before' (GetShortName (Name g) ++ ".")) = None ->
      Name att <> "" -> IsValidShortName (GetShortName (Name att)) = true ->
      Type_ att <> "" -> GetAttributeFormat (Type_ att) = None ->
      error (Validate c) =
      Some (unsupported_format (Type_ att) ""
              (dotted_path [GetShortName (Name g)] (GetShortName (Name att)))))
  /\ (In b (flat_map nodes (CIType.Attributes c)) ->
      Type_ b <> "" -> GetAttributeFormat (Type_ b) = None ->
      error (Validate c) <> None).
Proof.
  split; [|split; [|split]].
  - intros Hc R H1 H2 H3 H4. rewrite (Validate_top_checks _ Hc).
    now apply reaches_unsupported.
  - intros Hc Ha Hb H1 H2 H3 H4. rewrite (Validate_top_checks _ Hc), Ha.
    now apply validateAttributes_unsupported.
  - intros Hc Ha Hb Hg Hgt Hch Hb' H1 H2 H3 H4.
    rewrite (Validate_top_checks _ Hc), Ha.
    rewrite validateAttributes_app, Hb. cbn [error snd].
    rewrite validateAttributes_cons, (validateAttribute_group _ _ Hg Hgt). cbv zeta.
    cbn [error snd]. rewrite Hch.
    rewrite (validateAttributes_unsupported _ rest' _ _ Hb' H1 H2 H3 H4).
    unfold unsupported_format, dotted_path. cbn [fold_right append].
    now rewrite !append_assoc.
  - intros Hin Ht Hf.
    destruct (string_dec (CIType.Name c) "") as [Hn|Hn].
    { rewrite (Validate_no_name _ Hn). discriminate. }
    rewrite (Validate_named _ Hn). cbv zeta.
    destruct (IsValidShortName (checked_ShortName c)); [|discriminate].
    cbn [error snd]. rewrite validateAttributes_ok_iff, Forall_forall. intros H.
    apply in_flat_map in Hin. destruct Hin as (a & Ha & Hb).
    exact (validateAttribute_unregistered_node a b "" Hb Ht Hf (H a Ha)).
Qed.

(** *** The prefix given to the children of a group *)

(** The call on the children of a group is given the short name of the
    group and a dot, and nothing of the prefix the group was reached
    with: what a group returns does not depend on that prefix. *)
Lemma validateAttribute_group_prefix (g : CITypeAttribute) (p q : string) :
  own_checks g = true -> Type_ g = "group" ->
  validateAttribute g p = validateAttribute g q.
Proof.
  intros Ho Hg. now rewrite !(validateAttribute_group _ _ Ho Hg).
Qed.

(** So an error two groups deep carries the short name of the inner
    group only: below the group [g1], reached with any prefix [path], the
    untyped first child [att] of the group [g2] is reported with the
    prefix of [g2] alone. *)
Lemma nested_error_names_parent_only
  (g1 g2 att : CITypeAttribute) (rest rest1 rest2 : CITypeAttributeList) (path : string) :
  own_checks g1 = true -> Type_ g1 = "group" -> Children g1 = g2 :: rest1 ->
  own_checks g2 = true -> Type_ g2 = "group" -> Children g2 = att :: rest2 ->
  Name att <> "" -> IsValidShortName (GetShortName (Name att)) = true ->
  Type_ att = "" ->
  error (validateAttributes (g1 :: rest) path) =
  Some (no_type (GetShortName (Name g2) ++ ".") (GetShortName (Name att))).
Proof.
  intros Ho1 Hg1 Hc1 Ho2 Hg2 Hc2 Hn Hv Ht.
  rewrite validateAttributes_cons, (validateAttribute_group _ _ Ho1 Hg1). cbv zeta.
  cbn [error snd]. rewrite Hc1.
  rewrite validateAttributes_cons, (validateAttribute_group _ _ Ho2 Hg2). cbv zeta.
  cbn [error snd]. rewrite Hc2.
  rewrite validateAttributes_cons, (validateAttribute_no_type _ _ Hn Hv Ht).
  reflexivity.
Qed.

End ValidationProperties.

(** ** Validation on the example schemas *)

(** The lookups of [TestFormatFactory] and of the format tests. *)
Example registry_lookups :
  GetAttributeFormat "i_dont_exist" = None
  /\ GetAttributeFormat "string" = Some StringFormat
  /\ GetAttributeFormat "number" = Some NumberFormat
  /\ GetAttributeFormat "group" = Some GroupFormat
  /\ GetAttributeFormat "timestamp" = Some TimestampFormat
  /\ GetAttributeFormat "boolean" = Some BooleanFormat.
Proof. repeat split. Qed.

Example server_validates :
  error (Examples.Validate Examples.server) = None
  /\ CIType.ShortName (state (Examples.Validate Examples.server)) = "server"
  /\ map ShortName (flat_map nodes (CIType.Attributes (state (Examples.Validate Examples.server))))
     = ["hostname"; "hardware"; "cpucount"; "disks"; "size"].
Proof. repeat split. Qed.

(** A leaf with a child is refused. *)
Lemma children_validation_witness :
  error (Examples.validateAttributes [Examples.leaf_with_child] "") =
  Some "CI Attribute 'hostname' has children but is not a group attribute".
Proof.
  refine (proj2 (children_validation Examples.shortName Examples.validShortName
                   AttributeFormat GetAttributeFormat Examples.leaf_with_child "" "" _ _) _).
  - reflexivity.
  - discriminate.
  - discriminate.
Defined.





(** The missing name is reported, not the misplaced child, and the next
    sibling is not looked at. *)
Lemma fail_fast_witness :
  error (Examples.validateAttributes
           [attribute "" "" "" [attribute "Alias" "" "string" []]; Examples.hardware] "p.")
  = Some "No attribute name specified".
Proof.
  refine (proj1 (proj2 (fail_fast Examples.shortName Examples.validShortName
                          AttributeFormat GetAttributeFormat
                          (attribute "" "" "" [attribute "Alias" "" "string" []])
                          [Examples.hardware] [] [] "p." Examples.server)) _).
  reflexivity.
Defined.

(** C7, as it is stated, fails on a schema whose attribute of unregistered
    type comes after an attribute without a type: the schema holds an
    attribute whose non-empty type does not resolve, and validation stops
    at the first error, "No type specified for CI Attribute 'hostname'",
    which is not an "Unsupported attribute format" error. *)
Lemma unsupported_format_not_always_reported :
  ~ (forall (c : CIType.t) (b : CITypeAttribute),
       In b (flat_map nodes (CIType.Attributes c)) ->
       Type_ b <> "" -> GetAttributeFormat (Type_ b) = None ->
       exists path,
         error (Examples.Validate c) = Some (unsupported_format (Type_ b) "" path)).
Proof.
  intros H.
  destruct (H Examples.untyped_then_unknown (attribute "Vendor" "" "i_dont_exist" []))
    as [path E].
  - right. left. reflexivity.
  - discriminate.
  - reflexivity.
  - discriminate E.
Qed.

Example untyped_then_unknown_error :
  error (Examples.Validate Examples.untyped_then_unknown)
  = Some "No type specified for CI Attribute 'hostname'".
Proof. reflexivity. Qed.

(** The unregistered type of an attribute three groups deep. *)
Lemma unsupported_format_reported_witness :
  error (Examples.Validate Samples.unknown_deep) =
  Some "Unsupported attribute format 'i_dont_exist' for CI Attribute 'partitions.filesystem'".
Proof.
  refine (proj1 (unsupported_format_reported
                   Examples.shortName Examples.validShortName
                   AttributeFormat GetAttributeFormat
                   Samples.unknown_deep [] [] [] []
                   (attribute "File System" "" "i_dont_exist" [])
                   (attribute "File System" "" "i_dont_exist" [])
                   (attribute "File System" "" "i_dont_exist" [])
                   "partitions.")
            _ _ _ _ _ _); try reflexivity; try discriminate.
  refine (reaches_child _ _ _ _ [] [] _ _ "" "partitions." _ _ _ _); try reflexivity.
  refine (reaches_child _ _ _ _ [] [] _ _ "hardware." "partitions." _ _ _ _); try reflexivity.
  refine (reaches_child _ _ _ _ [] [] _ _ "disks." "partitions." _ _ _ _); try reflexivity.
  refine (reaches_sibling _ _ _ _ [attribute "Label" "" "string" []] [] _ "partitions." _).
  reflexivity.
Defined.

(** The unregistered type of a child of the group [Hardware]. *)
Example unknown_child_error :
  error (Examples.Validate Examples.unknown_child) =
  Some "Unsupported attribute format 'i_dont_exist' for CI Attribute 'hardware.vendor'".
Proof. reflexivity. Qed.

(** C1, on the code.  In [Examples.untyped_size] the attribute [Size]
    lies below the group [Disks], itself below the group [Hardware].  Its
    missing type is reported for 'disks.size': the message has the short
    name of the innermost group only, not the dotted path
    'hardware.disks.size' through all the groups above it. *)
Theorem nested_path_drops_ancestors :
  error (Examples.Validate Examples.untyped_size) =
    Some "No type specified for CI Attribute 'disks.size'"
  /\ dotted_path ["hardware"; "disks"] "size" = "hardware.disks.size"
  /\ error (Examples.Validate Examples.untyped_size) <>
     Some (no_type "" (dotted_path ["hardware"; "disks"] "size")).
Proof. repeat split. discriminate. Qed.

(** ** Lookup by short name *)


Lemma case_variant_ToUpper (s : string) : case_variant s (ToUpper s) = true.
Proof.
  unfold ToUpper. induction s as [|a s IH]; [reflexivity|].
  cbn [case_variant map_string]. rewrite IH, Ascii.eqb_refl.
  now rewrite orb_true_r.
Qed.

Lemma ascii_only_ToLower_upper (c : ascii) :
  is_upper (lower_ascii c) = false.
Proof. destruct c as [[] [] [] [] [] [] [] []]; reflexivity. Qed.

Section LookupProperties.

(** [strings.ToLower], of the Go library. *)
Variable strings_ToLower : string -> string.

Local Abbreviation Get_def := Get.
Local Abbreviation Get := (Get strings_ToLower).


End LookupProperties.


Example Get_examples :
  let atts := CIType.Attributes (state (Examples.Validate Examples.server)) in
  option_map Name (Examples.Get atts "HostName") = Some "Host Name"
  /\ option_map Name (Examples.Get atts "hOSTnAME") = Some "Host Name"
  /\ Examples.Get atts "Host Name" = None
  /\ Examples.Get atts "cpucount" = None.
Proof. repeat split. Qed.

(** ** Short names *)

Section NameNormalizerProperties.

Variable is_separator : ascii -> bool.

Local Abbreviation GetShortName_def := GetShortName.
Local Abbreviation GetShortName := (GetShortName is_separator).
Local Abbreviation in_alphabet_def := in_alphabet.
Local Abbreviation in_alphabet := (in_alphabet is_separator).

Lemma filter_string_idempotent (f : ascii -> bool) (s : string) :
  filter_string f (filter_string f s) = filter_string f s.
Proof.
  induction s as [|c s IH]; [reflexivity|]. cbn [filter_string].
  destruct (f c) eqn:E; [|exact IH]. cbn [filter_string]. now rewrite E, IH.
Qed.

Lemma ToLower_filter_ToLower (f : ascii -> bool) (s : string) :
  ToLower (filter_string f (ToLower s)) = filter_string f (ToLower s).
Proof.
  unfold ToLower. induction s as [|c s IH]; [reflexivity|].
  cbn [map_string filter_string].
  destruct (f (lower_ascii c)); [|exact IH].
  cbn [map_string]. now rewrite lower_ascii_idempotent, IH.
Qed.

(** Deriving a short name from a derived short name changes nothing,
    whatever the name. *)
Lemma GetShortName_idempotent_any (x : string) :
  GetShortName (GetShortName x) = GetShortName x.
Proof.
  unfold GetShortName_def.
  now rewrite ToLower_filter_ToLower, filter_string_idempotent.
Qed.

Lemma lower_ascii_alphanumeric (c : ascii) :
  is_upper c || is_lower c || is_digit c = true ->
  is_upper (lower_ascii c) || is_lower (lower_ascii c) || is_digit (lower_ascii c) = true.
Proof. destruct c as [[] [] [] [] [] [] [] []]; vm_compute; trivial. Qed.

(** Nothing is stripped from a name of letters and digits. *)
Lemma GetShortName_alphanumeric (x : string) :
  alphanumeric x = true -> GetShortName x = ToLower x.
Proof.
  unfold GetShortName_def, ToLower, alphanumeric.
  induction x as [|c x IH]; [reflexivity|].
  cbn [forallb_string map_string filter_string]. rewrite andb_true_iff.
  intros [Hc Hx]. apply lower_ascii_alphanumeric in Hc.
  assert (Hin : in_alphabet (lower_ascii c) = true)
    by (unfold in_alphabet_def; now rewrite Hc).
  now rewrite Hin, IH.
Qed.

(** C8.  On a name of ASCII letters and digits, deriving the short name
    of a derived short name gives that short name again.  ([GetShortName]
    is a function of its argument alone.) *)
Theorem GetShortName_idempotent (x : string) :
  alphanumeric x = true ->
  GetShortName (GetShortName x) = GetShortName x.
Proof.
  intros Hx. rewrite (GetShortName_alphanumeric x Hx).
  rewrite GetShortName_alphanumeric.
  - apply ToLower_idempotent.
  - revert Hx. unfold alphanumeric, ToLower.
    induction x as [|c x IH]; [reflexivity|].
    cbn [forallb_string map_string]. rewrite !andb_true_iff.
    intros [Hc Hx]. split; [now apply lower_ascii_alphanumeric|now apply IH].
Qed.

End NameNormalizerProperties.

(** A name of letters and digits. *)
Lemma GetShortName_idempotent_witness :
  GetShortName dash_or_underscore (GetShortName dash_or_underscore "HostName42")
  = GetShortName dash_or_underscore "HostName42".
Proof.
  refine (GetShortName_idempotent dash_or_underscore "HostName42" _).
  reflexivity.
Defined.

Example GetShortName_examples :
  GetShortName dash_or_underscore "HostName42" = "hostname42"
  /\ GetShortName dash_or_underscore "Host Name (primary)" = "hostnameprimary"
  /\ GetShortName dash_or_underscore "CPU_Count-2" = "cpu_count-2"
  /\ IsValidShortName dash_or_underscore "cpu_count-2" = true
  /\ IsValidShortName dash_or_underscore "host name" = false
  /\ IsValidShortName dash_or_underscore "" = true.
Proof. repeat split. Qed.

(** ** The boolean format *)


(** The validator that takes the numbers above zero for [true] passes the
    test; the one that takes every number but zero for [true] fails it. *)
Example TestBooleanFormat_by_sign : TestBooleanFormat Samples.by_sign = true.
Proof. reflexivity. Qed.

Example TestBooleanFormat_by_nonzero : TestBooleanFormat Samples.by_nonzero = false.
Proof. reflexivity. Qed.




(** ** Password hashes *)

Section CryptoProperties.

Variable Sum256 : list Byte.byte -> list Byte.byte.
Variable EncodeToString : list Byte.byte -> string.
Variable DecodeString : string -> option (list Byte.byte).

(** A SHA-256 digest has 32 bytes; decoding an encoding gives the bytes
    back; the encoding of some bytes is not the empty string. *)
Hypothesis Sum256_length : forall m, length (Sum256 m) = 32%nat.
Hypothesis DecodeString_EncodeToString :
  forall b, DecodeString (EncodeToString b) = Some b.
Hypothesis EncodeToString_nonempty :
  forall b, b <> [] -> EncodeToString b <> "".

Local Abbreviation HashPasswordWithSalt_def := HashPasswordWithSalt.
Local Abbreviation CheckPassword_def := CheckPassword.
Local Abbreviation HashPasswordWithSalt := (HashPasswordWithSalt Sum256 EncodeToString).
Local Abbreviation CheckPassword := (CheckPassword Sum256 EncodeToString DecodeString).

(** The salt is what follows the first 32 bytes of the decoded hash. *)
Lemma stored_salt (password : string) (salt : list Byte.byte) :
  exists b,
    DecodeString (HashPasswordWithSalt password salt) = Some b
    /\ (32 <= length b)%nat
    /\ skipn 32 b = salt.
Proof.
  unfold HashPasswordWithSalt_def. cbv zeta.
  eexists. split; [apply DecodeString_EncodeToString|].
  set (sha := Sum256 _). pose proof (Sum256_length (salt ++ list_byte_of_string password)) as L.
  fold sha in L. split.
  - rewrite length_app. lia.
  - rewrite skipn_app, <- L, skipn_all, Nat.sub_diag. reflexivity.
Qed.

Lemma HashPasswordWithSalt_nonempty (password : string) (salt : list Byte.byte) :
  HashPasswordWithSalt password salt <> "".
Proof.
  unfold HashPasswordWithSalt_def. cbv zeta. apply EncodeToString_nonempty.
  pose proof (Sum256_length (salt ++ list_byte_of_string password)) as L.
  destruct (Sum256 _); [discriminate L|discriminate].
Qed.

(** C10.  The hash of a non-empty password with a 32-byte salt checks
    against that password.  The hash decodes to 64 bytes: the digest of
    the salt followed by the password, then the salt; [CheckPassword]
    takes the bytes from byte 32 on, which are the salt, and the hash
    computed again with them is the same.  And [CheckPassword] returns
    [false] when the password or the hash is the empty string. *)
Theorem CheckPassword_HashPasswordWithSalt
  (p h : string) (s : list Byte.byte) :
  (p <> "" -> length s = 32%nat ->
   CheckPassword (HashPasswordWithSalt p s) p = Returns true
   /\ exists b,
        DecodeString (HashPasswordWithSalt p s) = Some b
        /\ length b = 64%nat
        /\ firstn 32 b = Sum256 (s ++ list_byte_of_string p)
        /\ skipn 32 b = s
        /\ HashPasswordWithSalt p (skipn 32 b) = HashPasswordWithSalt p s)
  /\ (p = "" \/ h = "" -> CheckPassword h p = Returns false).
Proof.
  split.
  - intros Hp Hs. split.
    + unfold CheckPassword_def.
      apply is_empty_false in Hp. rewrite Hp.
      pose proof (HashPasswordWithSalt_nonempty p s) as Hh.
      apply is_empty_false in Hh. rewrite Hh. cbn [orb].
      destruct (stored_salt p s) as (b & -> & Hl & ->).
      apply Nat.ltb_ge in Hl. rewrite Hl. now rewrite String.eqb_refl.
    + exists (Sum256 (s ++ list_byte_of_string p) ++ s)%list.
      pose proof (Sum256_length (s ++ list_byte_of_string p)) as L.
      assert (K : skipn 32 (Sum256 (s ++ list_byte_of_string p) ++ s) = s).
      { rewrite skipn_app, <- L, skipn_all, Nat.sub_diag. reflexivity. }
      split; [apply DecodeString_EncodeToString|].
      split; [rewrite length_app; lia|].
      split; [|split; [exact K|now rewrite K]].
      rewrite firstn_app, L, Nat.sub_diag, firstn_O, app_nil_r.
      rewrite <- L. apply firstn_all.
  - intros [-> | ->]; unfold CheckPassword_def; [reflexivity|].
    now rewrite orb_true_r.
Qed.

End CryptoProperties.

Lemma digest_length (m : list Byte.byte) : length (Examples.digest m) = 32%nat.
Proof.
  unfold Examples.digest. rewrite length_firstn, length_app, repeat_length. lia.
Qed.

Lemma decode_encode (b : list Byte.byte) :
  Examples.decode (Examples.encode b) = Some b.
Proof.
  unfold Examples.decode, Examples.encode.
  now rewrite list_byte_of_string_of_list_byte.
Qed.

Lemma encode_nonempty (b : list Byte.byte) : b <> [] -> Examples.encode b <> "".
Proof. destruct b; [congruence|discriminate]. Qed.

(** A password checks against its own hash. *)
Lemma CheckPassword_HashPasswordWithSalt_witness :
  CheckPassword Examples.digest Examples.encode Examples.decode
    (HashPasswordWithSalt Examples.digest Examples.encode "secret" Examples.salt)
    "secret"
  = Returns true.
Proof.
  refine (proj1 (proj1 (CheckPassword_HashPasswordWithSalt
                   Examples.digest Examples.encode Examples.decode
                   digest_length decode_encode encode_nonempty
                   "secret" "" Examples.salt) _ _)).
  - discriminate.
  - reflexivity.
Defined.

Example CheckPassword_examples :
  let hash := HashPasswordWithSalt Examples.digest Examples.encode "secret" Examples.salt in
  CheckPassword Examples.digest Examples.encode Examples.decode hash "Secret" = Returns false
  /\ CheckPassword Examples.digest Examples.encode Examples.decode hash "" = Returns false
  /\ CheckPassword Examples.digest Examples.encode Examples.decode "" "secret" = Returns false
  /\ CheckPassword Examples.digest Examples.encode Examples.decode "short" "secret" = Panics.
Proof. repeat split. Qed.

(** * Further properties *)

(** ** Which schemas validate *)

Section ValidationAcceptance.

Variable GetShortName : string -> string.
Variable IsValidShortName : string -> bool.
Variable Format : Type.
Variable GetAttributeFormat : string -> option Format.

Local Abbreviation acceptable_def := acceptable.
Local Abbreviation checked_ShortName_def := checked_ShortName.
Local Abbreviation Validate_def := Validate.
Local Abbreviation top_checks_def := top_checks.
Local Abbreviation normalize_def := normalize.
Local Abbreviation validateAttribute :=
  (validateAttribute GetShortName IsValidShortName GetAttributeFormat).
Local Abbreviation validateAttributes :=
  (validateAttributes GetShortName IsValidShortName GetAttributeFormat).
Local Abbreviation Validate :=
  (Validate GetShortName IsValidShortName GetAttributeFormat).
Local Abbreviation own_checks :=
  (own_checks GetShortName IsValidShortName GetAttributeFormat).
Local Abbreviation top_checks := (top_checks GetShortName IsValidShortName).
Local Abbreviation checked_ShortName := (checked_ShortName GetShortName).
Local Abbreviation acceptable :=
  (acceptable GetShortName IsValidShortName GetAttributeFormat).
Local Abbreviation normalize := (normalize GetShortName).

Lemma validateAttribute_ok_acceptable (att : CITypeAttribute) :
  forall path,
    error (validateAttribute att path) = None <->
    Forall (fun a => acceptable a = true) (nodes att).
Proof.
  induction att as [att IH] using CITypeAttribute_tree_ind. intros path.
  rewrite nodes_unfold, Forall_cons_iff, Forall_flat_map.
  unfold acceptable_def at 1. rewrite andb_true_iff.
  destruct (own_checks att) eqn:Ho.
  2:{ split; [|intros [[? _] _]; discriminate].
      intros H. now apply (validateAttribute_own_checks_false _ _ _ _ _ path) in Ho. }
  destruct (String.eqb_spec (Type_ att) "group") as [Hg|Hg].
  - rewrite (validateAttribute_group _ _ _ _ _ _ Ho Hg). cbv zeta. cbn [error snd].
    rewrite validateAttributes_ok_iff. cbn [orb].
    rewrite Forall_forall in IH. rewrite !Forall_forall. split.
    + intros H. split; [now split|]. intros a Ha.
      apply (proj1 (IH a Ha (GetShortName (Name att) ++ "."))), H, Ha.
    + intros [_ H] a Ha.
      apply (proj2 (IH a Ha (GetShortName (Name att) ++ "."))), H, Ha.
  - rewrite (validateAttribute_not_group _ _ _ _ _ _ Ho Hg). cbn [error snd orb].
    destruct (Children att) as [|ch l]; cbn [length Nat.ltb Nat.leb].
    + split; [intros _; repeat split; constructor|reflexivity].
    + split; [discriminate|intros [[_ ?] _]; discriminate].
Qed.

Lemma Validate_top_checks_false (c : CIType.t) :
  top_checks c = false -> error (Validate c) <> None.
Proof.
  unfold top_checks_def. intros Ht.
  destruct (string_dec (CIType.Name c) "") as [Hn|Hn].
  - rewrite (Validate_no_name _ _ _ _ _ Hn). discriminate.
  - rewrite (Validate_named _ _ _ _ _ Hn). cbv zeta.
    apply is_empty_false in Hn. rewrite Hn in Ht. cbn [negb andb] in Ht.
    rewrite Ht. discriminate.
Qed.

(** X1.  [validateAttributes] accepts a list of attributes exactly when
    every attribute of the trees, at every depth, passes its own checks
    (a name, a valid derived short name, a registered type) and has no
    children unless it is a group; the prefix plays no part.  [Validate]
    accepts a schema exactly when moreover the schema has a name and a
    valid short name (the one supplied or, if none is, the derived one). *)
Theorem validation_accepts (atts : CITypeAttributeList) (path : string) (c : CIType.t) :
  (error (validateAttributes atts path) = None <->
   Forall (fun a => acceptable a = true) (flat_map nodes atts))
  /\ (error (Validate c) = None <->
      top_checks c = true
      /\ Forall (fun a => acceptable a = true) (flat_map nodes (CIType.Attributes c))).
Proof.
  assert (A : forall l p,
             error (validateAttributes l p) = None <->
             Forall (fun a => acceptable a = true) (flat_map nodes l)).
  { intros l p. rewrite validateAttributes_ok_iff, Forall_flat_map, !Forall_forall.
    split; intros H a Ha;
      [apply (proj1 (validateAttribute_ok_acceptable a p)), H, Ha
      |apply (proj2 (validateAttribute_ok_acceptable a p)), H, Ha]. }
  split; [apply A|].
  destruct (top_checks c) eqn:Ht.
  - rewrite (Validate_top_checks _ _ _ _ _ Ht), A. tauto.
  - split; [|intros [? _]; discriminate]. intros H. exfalso.
    now apply (Validate_top_checks_false c Ht).
Qed.

(** ** What validation writes *)

Lemma normalize_set_ShortName (f : string -> string) (att : CITypeAttribute) (s : string) :
  normalize_def f (set_ShortName att s) = normalize_def f att.
Proof. destruct att; reflexivity. Qed.

Lemma normalize_set_Children (f : string -> string) (att : CITypeAttribute)
  (l : CITypeAttributeList) :
  map (normalize_def f) l = map (normalize_def f) (Children att) ->
  normalize_def f (set_Children att l) = normalize_def f att.
Proof. destruct att; cbn. now intros ->. Qed.

Lemma validateAttributes_keeps_children (f : string -> string) (l : CITypeAttributeList) :
  Forall (fun a => forall path,
            normalize_def f (state (validateAttribute a path)) = normalize_def f a) l ->
  forall path,
    map (normalize_def f) (state (validateAttributes l path)) = map (normalize_def f) l.
Proof.
  intros F path. induction F as [|a l Ha _ IHl]; [reflexivity|].
  rewrite validateAttributes_cons.
  destruct (error (validateAttribute a path)); cbn [state fst map];
    rewrite (Ha path); [reflexivity|].
  f_equal. exact IHl.
Qed.

Lemma validateAttribute_keeps (f : string -> string) (att : CITypeAttribute) :
  forall path,
    normalize_def f (state (validateAttribute att path)) = normalize_def f att.
Proof.
  induction att as [att IH] using CITypeAttribute_tree_ind. intros path.
  rewrite validateAttribute_unfold. cbv zeta.
  cbn [Name ShortName Type_ Children set_ShortName].
  destruct (is_empty (Name att)); [reflexivity|].
  destruct (IsValidShortName (GetShortName (Name att)));
    [|apply normalize_set_ShortName].
  destruct (is_empty (Type_ att)); [apply normalize_set_ShortName|].
  destruct (GetAttributeFormat (Type_ att)); [|apply normalize_set_ShortName].
  destruct (String.eqb (Type_ att) "group").
  - cbn [state fst negb]. rewrite normalize_set_Children;
      [apply normalize_set_ShortName|].
    cbn [Children set_ShortName].
    now apply validateAttributes_keeps_children.
  - destruct (0 <? length (Children att))%nat; apply normalize_set_ShortName.
Qed.

(** X2.  Validation writes short names and nothing else.  Whether it
    succeeds or fails, the attributes it leaves are the attributes it was
    given but for their short names, at every depth: names, types,
    children and options are never changed, and no attribute is added or
    removed.  And [Validate] leaves the name and the description of the
    schema as they were, as well as a short name that was supplied. *)
Theorem validation_writes_short_names_only
  (atts : CITypeAttributeList) (path : string) (c : CIType.t) :
  map without_ShortNames (state (validateAttributes atts path))
    = map without_ShortNames atts
  /\ map without_ShortNames (CIType.Attributes (state (Validate c)))
     = map without_ShortNames (CIType.Attributes c)
  /\ CIType.Name (state (Validate c)) = CIType.Name c
  /\ CIType.Description (state (Validate c)) = CIType.Description c
  /\ (CIType.ShortName c <> "" ->
      CIType.ShortName (state (Validate c)) = CIType.ShortName c).
Proof.
  assert (A : forall l p,
             map without_ShortNames (state (validateAttributes l p))
             = map without_ShortNames l).
  { intros l p. apply validateAttributes_keeps_children.
    apply Forall_forall. intros a _ q. apply validateAttribute_keeps. }
  split; [apply A|].
  destruct (string_dec (CIType.Name c) "") as [Hn|Hn].
  { rewrite (Validate_no_name _ _ _ _ _ Hn). now repeat split. }
  rewrite (Validate_named _ _ _ _ _ Hn). cbv zeta.
  assert (S : CIType.ShortName c <> "" -> checked_ShortName c = CIType.ShortName c).
  { intros H. unfold checked_ShortName_def. apply is_empty_false in H. now rewrite H. }
  destruct (IsValidShortName (checked_ShortName c));
    cbn [state fst CIType.Attributes CIType.Name CIType.Description CIType.ShortName
           CIType.set_Attributes CIType.set_ShortName];
    repeat split; try exact S.
  apply A.
Qed.

(** ** Supplied short names, and validating again *)

Lemma normalize_fields (f : string -> string) (att : CITypeAttribute) :
  Name (normalize_def f att) = Name att
  /\ Type_ (normalize_def f att) = Type_ att
  /\ Children (normalize_def f att) = map (normalize_def f) (Children att).
Proof. destruct att; cbn; repeat split. Qed.

(** The error of an attribute does not depend on the short names it and
    its descendants came with. *)
Lemma validateAttribute_error_normalize (f : string -> string) (att : CITypeAttribute) :
  forall path,
    error (validateAttribute (normalize_def f att) path) = error (validateAttribute att path).
Proof.
  induction att as [att IH] using CITypeAttribute_tree_ind. intros path.
  rewrite !validateAttribute_unfold. cbv zeta.
  cbn [Name ShortName Type_ Children set_ShortName].
  destruct (normalize_fields f att) as (-> & -> & ->).
  destruct (is_empty (Name att)); [reflexivity|].
  destruct (IsValidShortName (GetShortName (Name att))); [|reflexivity].
  destruct (is_empty (Type_ att)); [reflexivity|].
  destruct (GetAttributeFormat (Type_ att)); [|reflexivity].
  destruct (String.eqb (Type_ att) "group").
  - cbn [error snd negb].
    generalize (GetShortName (Name att) ++ ".") as p. intros p.
    induction IH as [|a l Ha _ IHl]; [reflexivity|].
    cbn [map]. rewrite !validateAttributes_cons, (Ha p).
    destruct (error (validateAttribute a p)); [reflexivity|exact IHl].
  - rewrite length_map. cbn [negb].
    destruct (0 <? length (Children att))%nat; reflexivity.
Qed.

Lemma validateAttributes_error_normalize (f : string -> string)
  (atts : CITypeAttributeList) (path : string) :
  error (validateAttributes (map (normalize_def f) atts) path)
  = error (validateAttributes atts path).
Proof.
  induction atts as [|a l IH]; [reflexivity|].
  cbn [map]. rewrite !validateAttributes_cons, validateAttribute_error_normalize.
  destruct (error (validateAttribute a path)); [reflexivity|exact IH].
Qed.

Lemma normalize_normalize (f g : string -> string) (att : CITypeAttribute) :
  normalize_def g (normalize_def f att) = normalize_def g att.
Proof.
  induction att as [att IH] using CITypeAttribute_tree_ind.
  destruct att as [n sn t d ch rq ia mic mac sg mil mal fl un miv mav].
  cbn in *. f_equal. rewrite map_map.
  induction IH as [|a l Ha _ IHl]; [reflexivity|].
  cbn [map]. now rewrite Ha, IHl.
Qed.

(** X3.  The short names that the attributes come with play no part in
    validation: with these short names replaced by anything, at every
    depth, validation returns the same error, and when it succeeds it
    leaves the same attributes. *)
Theorem supplied_short_names_ignored
  (f : string -> string) (atts : CITypeAttributeList) (path : string) :
  error (validateAttributes (map (normalize_def f) atts) path)
    = error (validateAttributes atts path)
  /\ (error (validateAttributes atts path) = None ->
      state (validateAttributes (map (normalize_def f) atts) path)
      = state (validateAttributes atts path)).
Proof.
  split; [apply validateAttributes_error_normalize|].
  intros Hok.
  rewrite (validateAttributes_ok_normalize _ _ _ _ atts path Hok).
  rewrite validateAttributes_ok_normalize
    by now rewrite validateAttributes_error_normalize.
  rewrite map_map. apply map_ext. intros a. apply normalize_normalize.
Qed.

(** X4.  A schema that [Validate] has accepted is accepted again, and
    the second validation changes nothing. *)
Theorem Validate_again (c : CIType.t) :
  error (Validate c) = None ->
  Validate (state (Validate c)) = (state (Validate c), None).
Proof.
  destruct (string_dec (CIType.Name c) "") as [Hn|Hn].
  { rewrite (Validate_no_name _ _ _ _ _ Hn). discriminate. }
  rewrite (Validate_named _ _ _ _ _ Hn). cbv zeta.
  destruct (IsValidShortName (checked_ShortName c)) eqn:Hv; [|discriminate].
  cbn [error state fst snd]. intros Hok.
  rewrite (validateAttributes_ok_normalize _ _ _ _ _ _ Hok).
  set (c' := CIType.set_Attributes _ _).
  assert (Hn' : CIType.Name c' <> "") by exact Hn.
  assert (Hs : checked_ShortName c' = checked_ShortName c).
  { unfold checked_ShortName_def, c'.
    cbn [CIType.ShortName CIType.Name CIType.set_Attributes CIType.set_ShortName].
    unfold checked_ShortName_def.
    destruct (is_empty (CIType.ShortName c)) eqn:E; cbv iota; [|now rewrite E].
    destruct (is_empty (GetShortName (CIType.Name c))); reflexivity. }
  rewrite (Validate_named _ _ _ _ _ Hn'). cbv zeta. rewrite Hs, Hv.
  assert (Hok' : error (validateAttributes (CIType.Attributes c') "") = None).
  { unfold c'. cbn [CIType.Attributes CIType.set_Attributes].
    now rewrite validateAttributes_error_normalize. }
  rewrite Hok', (validateAttributes_ok_normalize _ _ _ _ _ _ Hok').
  f_equal. unfold c'.
  cbn [CIType.ShortName CIType.Name CIType.Description CIType.Attributes
         CIType.set_Attributes CIType.set_ShortName].
  unfold CIType.set_Attributes, CIType.set_ShortName.
  cbn [CIType.ShortName CIType.Name CIType.Description CIType.Attributes].
  f_equal. rewrite map_map. apply map_ext. intros a. apply normalize_normalize.
Qed.

(** ** Lookup in a validated list *)

Lemma ShortName_normalize (f : string -> string) (att : CITypeAttribute) :
  ShortName (normalize_def f att) = f (Name att).
Proof. destruct att; reflexivity. Qed.

(** [strings.ToLower], of the Go library. *)
Variable strings_ToLower : string -> string.

(** X5.  In a list that [validateAttributes] has accepted, [Get] finds an
    attribute by its name: the result is the first attribute, as
    validation left it, whose name has the lower-cased [name] as derived
    short name, and [nil] when there is none.  Short names are not
    required to differ between siblings: a list that is accepted is still
    accepted with one of its attributes repeated in front. *)
Theorem Get_after_validation (atts : CITypeAttributeList) (path name : string) :
  error (validateAttributes atts path) = None ->
  Get strings_ToLower (state (validateAttributes atts path)) name
    = option_map normalize
        (find (fun a => String.eqb (GetShortName (Name a)) (strings_ToLower name)) atts)
  /\ (forall a, In a atts -> error (validateAttributes (a :: atts) path) = None).
Proof.
  intros Hok.
  assert (G : forall l,
             Get strings_ToLower (map normalize l) name
             = option_map normalize
                 (find (fun a => String.eqb (GetShortName (Name a)) (strings_ToLower name)) l)).
  { unfold Get. induction l as [|a l IH]; [reflexivity|].
    cbn [map find]. rewrite ShortName_normalize.
    destruct (String.eqb (GetShortName (Name a)) (strings_ToLower name));
      [reflexivity|exact IH]. }
  rewrite (validateAttributes_ok_normalize _ _ _ _ _ _ Hok), G.
  split; [reflexivity|].
  intros a Ha. rewrite validateAttributes_cons.
  apply validateAttributes_ok_iff in Hok. rewrite Forall_forall in Hok.
  rewrite (Hok a Ha). cbn [error snd]. now apply validateAttributes_ok_iff, Forall_forall.
Qed.

End ValidationAcceptance.

(** X6.  [Get] compares the stored short names with the lower-cased
    name, and [strings.ToLower] leaves no upper-case ASCII letter in a
    string: an attribute stored with such a letter in its short name is
    never returned, whatever the name asked for. *)
Theorem Get_lower_case_only (strings_ToLower : string -> string)
  (l : CITypeAttributeList) (name : string) (att : CITypeAttribute) :
  (forall s, existsb_string is_upper (strings_ToLower s) = false) ->
  existsb_string is_upper (ShortName att) = true ->
  Get strings_ToLower l name <> Some att.
Proof.
  intros HL Hu E. unfold Get in E. apply find_some in E. destruct E as [_ E].
  apply String.eqb_eq in E. rewrite E, HL in Hu. discriminate Hu.
Qed.

Lemma ToLower_no_upper (s : string) : existsb_string is_upper (ToLower s) = false.
Proof.
  unfold ToLower. induction s as [|c s IH]; [reflexivity|].
  cbn [map_string existsb_string]. now rewrite ascii_only_ToLower_upper, IH.
Qed.

(** ** Passwords and keys *)

Lemma app_inj_length {A : Type} (a a' b b' : list A) :
  length a = length a' -> (a ++ b = a' ++ b')%list -> a = a' /\ b = b'.
Proof.
  revert a'. induction a as [|x a IH]; intros [|x' a'] L E; try discriminate.
  - now split.
  - cbn in L, E. injection L as L. injection E as -> E.
    destruct (IH _ L E) as [-> ->]. now split.
Qed.

Lemma forallb_filter_string (f : ascii -> bool) (s : string) :
  forallb_string f (filter_string f s) = true.
Proof.
  induction s as [|c s IH]; [reflexivity|]. cbn [filter_string].
  destruct (f c) eqn:E; [|exact IH]. cbn [forallb_string]. now rewrite E, IH.
Qed.

Lemma substring_prefix_length (n : nat) (s : string) :
  n <= String.length s -> String.length (substring 0 n s) = n.
Proof.
  revert s. induction n as [|n IH]; intros [|c s] L; cbn in *;
    try lia; try reflexivity.
  now rewrite IH by lia.
Qed.

Lemma forallb_substring_prefix (f : ascii -> bool) (n : nat) (s : string) :
  forallb_string f s = true -> forallb_string f (substring 0 n s) = true.
Proof.
  revert s. induction n as [|n IH]; intros [|c s]; cbn; try reflexivity.
  rewrite !andb_true_iff. intros [-> H]. split; [reflexivity|now apply IH].
Qed.

Section CryptoCallersProperties.

Variable Sum256 : list Byte.byte -> list Byte.byte.
Variable EncodeToString : list Byte.byte -> string.
Variable DecodeString : string -> option (list Byte.byte).
Variable rand_Read : nat -> option (list Byte.byte).

Hypothesis Sum256_length : forall m, length (Sum256 m) = 32%nat.
Hypothesis DecodeString_EncodeToString :
  forall b, DecodeString (EncodeToString b) = Some b.
Hypothesis EncodeToString_nonempty :
  forall b, b <> [] -> EncodeToString b <> "".

Local Abbreviation HashPasswordWithSalt_def := HashPasswordWithSalt.
Local Abbreviation CheckPassword_def := CheckPassword.
Local Abbreviation HashPassword_def := HashPassword.
Local Abbreviation HashPasswordWithSalt := (HashPasswordWithSalt Sum256 EncodeToString).
Local Abbreviation CheckPassword := (CheckPassword Sum256 EncodeToString DecodeString).
Local Abbreviation HashPassword := (HashPassword Sum256 EncodeToString rand_Read).

Lemma EncodeToString_injective (x y : list Byte.byte) :
  EncodeToString x = EncodeToString y -> x = y.
Proof.
  intros E. pose proof (DecodeString_EncodeToString x) as Hx.
  rewrite E, DecodeString_EncodeToString in Hx. now injection Hx.
Qed.

(** What [CheckPassword] returns for a hash made by
    [HashPasswordWithSalt]: it never panics, and compares the digests. *)
Lemma CheckPassword_of_hash (p q : string) (s : list Byte.byte) :
  q <> "" ->
  CheckPassword (HashPasswordWithSalt p s) q
  = Returns (String.eqb (HashPasswordWithSalt p s) (HashPasswordWithSalt q s)).
Proof.
  intros Hq. unfold CheckPassword_def.
  apply is_empty_false in Hq. rewrite Hq.
  pose proof (HashPasswordWithSalt_nonempty Sum256 EncodeToString Sum256_length
                EncodeToString_nonempty p s) as Hh.
  apply is_empty_false in Hh. rewrite Hh. cbn [orb].
  destruct (stored_salt Sum256 EncodeToString DecodeString Sum256_length
              DecodeString_EncodeToString p s) as (b & -> & Hl & ->).
  apply Nat.ltb_ge in Hl. now rewrite Hl.
Qed.

(** X7.  [CheckPassword] on a hash made by [HashPasswordWithSalt] for the
    password [p] and the salt [s] never panics, and it accepts another
    password [q] exactly when [q] is not empty and the digest of the salt
    followed by [q] is the digest of the salt followed by [p]. *)
Theorem CheckPassword_other_password (p q : string) (s : list Byte.byte) :
  CheckPassword (HashPasswordWithSalt p s) q <> Panics
  /\ (CheckPassword (HashPasswordWithSalt p s) q = Returns true <->
      q <> ""
      /\ Sum256 (s ++ list_byte_of_string q) = Sum256 (s ++ list_byte_of_string p)).
Proof.
  destruct (string_dec q "") as [->|Hq].
  { split; [discriminate|]. split; [discriminate|]. intros [H _]. congruence. }
  rewrite (CheckPassword_of_hash p q s Hq). split; [discriminate|].
  split.
  - intros [= E]. apply String.eqb_eq in E. split; [exact Hq|].
    unfold HashPasswordWithSalt_def in E. cbv zeta in E.
    apply EncodeToString_injective in E.
    apply app_inj_length in E; [symmetry; tauto|].
    now rewrite !Sum256_length.
  - intros [_ E]. unfold HashPasswordWithSalt_def. cbv zeta. rewrite E.
    now rewrite String.eqb_refl.
Qed.

(** X8.  When [CheckPassword] returns [true], the password is not empty
    and the hash decodes to at least 32 bytes, the first 32 of which are
    the digest of the bytes after them followed by the password. *)
Theorem CheckPassword_sound (h p : string) :
  CheckPassword h p = Returns true ->
  p <> ""
  /\ exists b,
       DecodeString h = Some b
       /\ 32 <= length b
       /\ firstn 32 b = Sum256 (skipn 32 b ++ list_byte_of_string p).
Proof.
  unfold CheckPassword_def.
  destruct (is_empty p) eqn:Hp; [discriminate|].
  destruct (is_empty h); [discriminate|]. cbn [orb].
  destruct (DecodeString h) as [b|] eqn:Hd; [|discriminate].
  destruct (length b <? 32)%nat eqn:Hl; [discriminate|].
  intros [= E]. apply String.eqb_eq in E.
  split; [now apply is_empty_false|].
  exists b. split; [reflexivity|]. split; [now apply Nat.ltb_ge|].
  unfold HashPasswordWithSalt_def in E. cbv zeta in E.
  rewrite E, DecodeString_EncodeToString in Hd. injection Hd as Hb.
  set (d := Sum256 _) in *.
  rewrite <- Hb at 1.
  rewrite firstn_app, (Sum256_length _ : length d = 32%nat), Nat.sub_diag.
  rewrite firstn_O, app_nil_r.
  rewrite <- (Sum256_length (skipn 32 b ++ list_byte_of_string p)).
  apply firstn_all.
Qed.

(** X9.  The salt can be read off a hash: two calls of
    [HashPasswordWithSalt] that return the same hash were given the same
    salt, and passwords with the same digest after that salt. *)
Theorem HashPasswordWithSalt_same_hash (p p' : string) (s s' : list Byte.byte) :
  HashPasswordWithSalt p s = HashPasswordWithSalt p' s' ->
  s = s'
  /\ Sum256 (s ++ list_byte_of_string p) = Sum256 (s ++ list_byte_of_string p').
Proof.
  unfold HashPasswordWithSalt_def. cbv zeta. intros E.
  apply EncodeToString_injective in E.
  apply app_inj_length in E; [|now rewrite !Sum256_length].
  destruct E as [E <-]. now split.
Qed.

(** X10.  A hash made by [HashPassword] for a password that is not empty
    is not empty, and [CheckPassword] accepts the password against it,
    whatever salt was drawn.  The empty password has the empty hash, which
    [CheckPassword] accepts for no password.  And [HashPassword] panics
    exactly when the password is not empty and the random source fails. *)
Theorem HashPassword_CheckPassword (p : string) :
  (forall h, HashPassword p = Done h -> p <> "" ->
             h <> "" /\ CheckPassword h p = Returns true)
  /\ (forall h, HashPassword p = Done h -> p = "" ->
                h = "" /\ forall q, CheckPassword h q = Returns false)
  /\ (HashPassword p = Panic <-> p <> "" /\ rand_Read 32 = None).
Proof.
  unfold HashPassword_def, RandomSalt. split; [|split].
  - intros h H Hp. pose proof Hp as Hp'. apply is_empty_false in Hp'.
    rewrite Hp' in H.
    destruct (rand_Read 32) as [salt|]; [|discriminate]. injection H as <-.
    split.
    + apply (HashPasswordWithSalt_nonempty Sum256 EncodeToString Sum256_length
               EncodeToString_nonempty).
    + rewrite (CheckPassword_of_hash p p salt Hp). now rewrite String.eqb_refl.
  - intros h H ->. cbn in H. injection H as <-. split; [reflexivity|].
    intros q. unfold CheckPassword_def. cbn [is_empty]. now rewrite orb_true_r.
  - split.
    + intros H. destruct (is_empty p) eqn:E; [discriminate|].
      split; [now apply is_empty_false|].
      destruct (rand_Read 32); [discriminate|reflexivity].
    + intros [Hp ->]. apply is_empty_false in Hp. now rewrite Hp.
Qed.

End CryptoCallersProperties.

Section GenerateApiKeyProperties.

Variable Sum256 : list Byte.byte -> list Byte.byte.
Variable EncodeToString : list Byte.byte -> string.
Variable rand_Read : nat -> option (list Byte.byte).
Variable User : Type.
Variable Email : User -> string.

Local Abbreviation GenerateApiKey_def := GenerateApiKey.
Local Abbreviation HashPassword_def := HashPassword.
Local Abbreviation GenerateApiKey :=
  (GenerateApiKey Sum256 EncodeToString rand_Read Email).
Local Abbreviation HashPasswordWithSalt := (HashPasswordWithSalt Sum256 EncodeToString).

(** X11.  A key that [GenerateApiKey] returns is empty when the user has
    no e-mail address, and otherwise has exactly 32 bytes, all of them
    ASCII letters or digits.  The call panics exactly when the user has an
    e-mail address and either the random source fails or the hash of the
    address holds fewer than 32 letters and digits. *)
Theorem GenerateApiKey_key (user : User) :
  (forall key, GenerateApiKey user = Done key ->
     (Email user = "" /\ key = "")
     \/ (Email user <> "" /\ String.length key = 32
         /\ forallb_string is_alphanumeric key = true))
  /\ (GenerateApiKey user = Panic <->
      Email user <> ""
      /\ (rand_Read 32 = None
          \/ exists salt,
               rand_Read 32 = Some salt
               /\ String.length
                    (filter_string is_alphanumeric (HashPasswordWithSalt (Email user) salt))
                  < 32)).
Proof.
  unfold GenerateApiKey_def, HashPassword_def, RandomSalt.
  destruct (is_empty (Email user)) eqn:He.
  - apply is_empty_true in He. split.
    + intros key [= <-]. now left.
    + split; [discriminate|]. intros [H _]. congruence.
  - pose proof (proj1 (is_empty_false _) He) as Hne.
    destruct (rand_Read 32) as [salt|].
    + cbv zeta.
      set (hash := filter_string is_alphanumeric (HashPasswordWithSalt (Email user) salt)).
      destruct (String.length hash <? 32)%nat eqn:Hl.
      * apply Nat.ltb_lt in Hl. split; [discriminate|].
        split; [|reflexivity]. intros _. split; [exact Hne|].
        right. exists salt. now split.
      * apply Nat.ltb_ge in Hl. split.
        -- intros key [= <-]. right. split; [exact Hne|]. split.
           ++ now apply substring_prefix_length.
           ++ apply forallb_substring_prefix, forallb_filter_string.
        -- split; [discriminate|].
           intros [_ [H|(salt' & [= <-] & H)]]; [discriminate|].
           fold hash in H. lia.
    + split; [discriminate|]. split; [|reflexivity].
      intros _. split; [exact Hne|]. now left.
Qed.

End GenerateApiKeyProperties.

(** ** The configuration singleton *)

Section ConfigurationProperties.

Import Configuration.

Variable File : Type.

Local Abbreviation FileSystem := (FileSystem File).

(** X12.  Once [GetConfig] has returned a configuration, the package
    holds it: every later [GetConfig] returns that configuration and
    changes nothing, whatever has become of the files, and every later
    [GetConfigFromFile] returns the error "a configuration file was
    specified but configuration is already loaded" and changes nothing. *)
Theorem GetConfig_singleton (fs : FileSystem) (g : globals) (c : Config) :
  snd (GetConfig fs g) = inr c ->
  let g' := fst (GetConfig fs g) in
  config g' = Some c
  /\ (forall fs' : FileSystem, GetConfig fs' g' = (g', inr c))
  /\ (forall (fs' : FileSystem) path,
        GetConfigFromFile fs' path g'
        = (g', inl "a configuration file was specified but configuration is already loaded")).
Proof.
  intros H g'.
  assert (L : config g' = Some c).
  { subst g'. revert H. unfold GetConfig.
    destruct (config g) as [c0|] eqn:Hc; [cbn; congruence|].
    destruct (is_empty (confFilePath g));
      [destruct (Stat fs "./config.json");
       [|destruct (Stat fs "/etc/alexandria/config.json"); [|discriminate]]|];
      (match goal with
       | |- context [Open fs ?p] => destruct (Open fs p) as [e|f]; [discriminate|]
       end;
       destruct (Decode fs f defaults); [discriminate|]; cbn; congruence). }
  split; [exact L|]. split.
  - intros fs'. unfold GetConfig. now rewrite L.
  - intros fs' path. unfold GetConfigFromFile. now rewrite L.
Qed.

(** What loading the file at [path] gives. *)
Lemma GetConfig_with_path (fs : FileSystem) (g : globals) :
  config g = None -> confFilePath g <> "" ->
  GetConfig fs g =
  match Open fs (confFilePath g) with
  | inl err => (mkGlobals (confFilePath g) None, inl err)
  | inr confFile =>
      match Decode fs confFile defaults with
      | inl err => (mkGlobals (confFilePath g) None, inl err)
      | inr c => (mkGlobals (confFilePath g) (Some c), inr c)
      end
  end.
Proof.
  intros Hc Hp. unfold GetConfig. rewrite Hc.
  apply is_empty_false in Hp. now rewrite Hp.
Qed.

Lemma GetConfig_path_after (fs : FileSystem) (path : string) :
  path <> "" -> confFilePath (fst (GetConfig fs (mkGlobals path None))) = path.
Proof.
  intros H. rewrite GetConfig_with_path by (cbn; first [reflexivity | assumption]).
  cbn [confFilePath]. destruct (Open fs path) as [e|f]; [reflexivity|].
  destruct (Decode fs f defaults); reflexivity.
Qed.

(** The search for a file when no path is set. *)
Lemma GetConfig_searching (fs : FileSystem) (g : globals) :
  config g = None -> confFilePath g = "" ->
  GetConfig fs g =
  if Stat fs "./config.json"
  then GetConfig fs (mkGlobals "./config.json" None)
  else if Stat fs "/etc/alexandria/config.json"
       then GetConfig fs (mkGlobals "/etc/alexandria/config.json" None)
       else (g, inl "no configuration file was found").
Proof.
  intros Hc Hp. unfold GetConfig. rewrite Hc, Hp. cbn [is_empty config confFilePath].
  destruct (Stat fs "./config.json"); [reflexivity|].
  destruct (Stat fs "/etc/alexandria/config.json"); reflexivity.
Qed.

(** X13.  With no configuration loaded and no path set, [GetConfig]
    looks for "./config.json" first.  If that file exists it is the one
    loaded, and if it cannot be opened or decoded the call fails with that
    error, without a look at "/etc/alexandria/config.json"; the path is
    remembered either way.  The file under "/etc/alexandria" is loaded
    only if the first does not exist, and if neither exists the call
    fails with "no configuration file was found" and changes nothing. *)
Theorem GetConfig_search (fs : FileSystem) (g : globals) :
  config g = None -> confFilePath g = "" ->
  (Stat fs "./config.json" = true ->
   GetConfig fs g = GetConfig fs (mkGlobals "./config.json" None)
   /\ confFilePath (fst (GetConfig fs g)) = "./config.json")
  /\ (Stat fs "./config.json" = false ->
      Stat fs "/etc/alexandria/config.json" = true ->
      GetConfig fs g = GetConfig fs (mkGlobals "/etc/alexandria/config.json" None)
      /\ confFilePath (fst (GetConfig fs g)) = "/etc/alexandria/config.json")
  /\ (Stat fs "./config.json" = false ->
      Stat fs "/etc/alexandria/config.json" = false ->
      GetConfig fs g = (g, inl "no configuration file was found")).
Proof.
  intros Hc Hp. rewrite (GetConfig_searching fs g Hc Hp). split; [|split].
  - intros ->. split; [reflexivity|]. apply GetConfig_path_after. discriminate.
  - intros -> ->. split; [reflexivity|]. apply GetConfig_path_after. discriminate.
  - intros -> ->. reflexivity.
Qed.

(** X14.  Once a path is set, [GetConfig] keeps it and never looks for
    the default files: with no configuration loaded, its result is what
    opening and decoding the file at that path gives.  In particular a
    [GetConfigFromFile] that fails leaves its path set, so that a later
    [GetConfig] tries that file again and no other. *)
Theorem confFilePath_kept (fs fs' : FileSystem) (g : globals) (path : string) :
  (confFilePath g <> "" -> confFilePath (fst (GetConfig fs g)) = confFilePath g)
  /\ (config g = None -> path <> "" ->
      forall err, snd (GetConfigFromFile fs path g) = inl err ->
        fst (GetConfigFromFile fs path g) = mkGlobals path None
        /\ snd (GetConfig fs' (fst (GetConfigFromFile fs path g)))
           = match Open fs' path with
             | inl err' => inl err'
             | inr confFile => Decode fs' confFile defaults
             end).
Proof.
  split.
  - intros Hp. destruct (config g) as [c|] eqn:Hc.
    + unfold GetConfig. now rewrite Hc.
    + rewrite (GetConfig_with_path fs g Hc Hp).
      destruct (Open fs (confFilePath g)) as [e|f]; [reflexivity|].
      destruct (Decode fs f defaults); reflexivity.
  - intros Hc Hp err. unfold GetConfigFromFile. rewrite Hc.
    rewrite GetConfig_with_path by (cbn; first [reflexivity | assumption]).
    cbn [confFilePath].
    assert (R : snd (GetConfig fs' (mkGlobals path None))
                = match Open fs' path with
                  | inl err' => inl err'
                  | inr confFile => Decode fs' confFile defaults
                  end).
    { rewrite GetConfig_with_path by (cbn; first [reflexivity | assumption]).
      cbn [confFilePath]. destruct (Open fs' path) as [e|f]; [reflexivity|].
      destruct (Decode fs' f defaults); reflexivity. }
    destruct (Open fs path) as [e|f]; [intros _; now split|].
    destruct (Decode fs f defaults); [intros _; now split|discriminate].
Qed.

Lemma GetConfig_loads (fs : FileSystem) (g : globals) (c : Config) :
  config g = None ->
  config (fst (GetConfig fs g)) = Some c ->
  confFilePath (fst (GetConfig fs g)) <> ""
  /\ exists f, Open fs (confFilePath (fst (GetConfig fs g))) = inr f
               /\ Decode fs f defaults = inr c.
Proof.
  intros Hc.
  assert (W : forall path, path <> "" ->
                config (fst (GetConfig fs (mkGlobals path None))) = Some c ->
                confFilePath (fst (GetConfig fs (mkGlobals path None))) <> ""
                /\ exists f,
                     Open fs (confFilePath (fst (GetConfig fs (mkGlobals path None)))) = inr f
                     /\ Decode fs f defaults = inr c).
  { intros path Hp.
    rewrite GetConfig_with_path by (cbn; first [reflexivity | assumption]).
    cbn [confFilePath]. destruct (Open fs path) as [e|f] eqn:Ho; [discriminate|].
    destruct (Decode fs f defaults) as [e|c'] eqn:Hd; [discriminate|].
    cbn. intros [= ->]. split; [exact Hp|]. exists f. now split. }
  destruct (string_dec (confFilePath g) "") as [Hp|Hp].
  - rewrite (GetConfig_searching fs g Hc Hp).
    destruct (Stat fs "./config.json"); [apply W; discriminate|].
    destruct (Stat fs "/etc/alexandria/config.json"); [apply W; discriminate|].
    cbn. congruence.
  - destruct g as [path cfg]. cbn in Hc, Hp. subst cfg. now apply W.
Qed.

Lemma serve_loaded_from (seen : list FileSystem) (fs : FileSystem) (r : request)
  (g : globals) :
  loaded_from seen g -> loaded_from (fs :: seen) (fst (serve fs r g)).
Proof.
  intros I. destruct (config g) as [c0|] eqn:Hc.
  - assert (E : fst (serve fs r g) = g).
    { destruct r; cbn [serve]; unfold GetConfigFromFile, GetConfig; now rewrite Hc. }
    rewrite E. intros c H. destruct (I c H) as (Hp & fs0 & f & Hin & Ho & Hd).
    split; [exact Hp|]. exists fs0, f. split; [now right|now split].
  - assert (L : forall g0, config g0 = None -> loaded_from (fs :: seen) (fst (GetConfig fs g0))).
    { intros g0 H0 c H. destruct (GetConfig_loads fs g0 c H0 H) as (Hp & f & Ho & Hd).
      split; [exact Hp|]. exists fs, f. split; [now left|now split]. }
    destruct r as [|path]; cbn [serve].
    + now apply L.
    + unfold GetConfigFromFile. rewrite Hc. now apply L.
Qed.

(** X15.  After any sequence of calls of [GetConfig] and
    [GetConfigFromFile] from the start of the program, a configuration
    that is loaded has a path that is not empty, and it is what the
    decoder made, at one of these calls, of the defaults and the file
    opened at that path. *)
Theorem loaded_config_comes_from_file
  (calls : list (FileSystem * request)) (c : Config) :
  let g := after calls initial in
  config g = Some c ->
  confFilePath g <> ""
  /\ exists fs f, In fs (map fst calls)
                  /\ Open fs (confFilePath g) = inr f
                  /\ Decode fs f defaults = inr c.
Proof.
  assert (G : forall (calls : list (FileSystem * request)) (seen : list FileSystem) g,
             loaded_from seen g ->
             loaded_from (rev (map fst calls) ++ seen) (after calls g)).
  { clear calls c. induction calls as [|[fs r] calls IH]; intros seen g I; [exact I|].
    cbn [after map rev]. rewrite <- app_assoc. cbn [app].
    apply IH. now apply serve_loaded_from. }
  intros g H.
  assert (I0 : loaded_from (@nil FileSystem) initial) by (intros c0 H0; discriminate H0).
  destruct (G calls [] initial I0 c H) as (Hp & fs & f & Hin & Ho & Hd).
  split; [exact Hp|]. exists fs, f. split; [|now split].
  rewrite app_nil_r in Hin. now apply in_rev.
Qed.

End ConfigurationProperties.

(** ** The further properties on the sample data *)

(** A supplied short name of the schema is kept. *)
Lemma validation_writes_short_names_only_witness :
  CIType.ShortName (state (Examples.Validate Samples.labelled)) = "SRV".
Proof.
  refine (proj2 (proj2 (proj2 (proj2
            (validation_writes_short_names_only
               Examples.shortName Examples.validShortName AttributeFormat GetAttributeFormat
               [] "" Samples.labelled)))) _).
  discriminate.
Defined.

(** The short names that [Samples.labelled] comes with make no
    difference. *)
Lemma supplied_short_names_ignored_witness :
  state (Examples.validateAttributes
           (map (normalize (fun _ => "")) (CIType.Attributes Samples.labelled)) "")
  = state (Examples.validateAttributes (CIType.Attributes Samples.labelled) "").
Proof.
  refine (proj2 (supplied_short_names_ignored
                   Examples.shortName Examples.validShortName AttributeFormat GetAttributeFormat
                   (fun _ => "") (CIType.Attributes Samples.labelled) "") _).
  reflexivity.
Defined.

(** [Examples.server] validates a second time, unchanged. *)
Lemma Validate_again_witness :
  Examples.Validate (state (Examples.Validate Examples.server))
  = (state (Examples.Validate Examples.server), None).
Proof.
  refine (Validate_again Examples.shortName Examples.validShortName
            AttributeFormat GetAttributeFormat Examples.server _).
  reflexivity.
Defined.

(** The attribute named "Host Name" is found under "HostName". *)
Lemma Get_after_validation_witness :
  Examples.Get (state (Examples.validateAttributes (CIType.Attributes Samples.labelled) ""))
    "HostName"
  = option_map (normalize Examples.shortName)
      (find (fun a => String.eqb (Examples.shortName (Name a)) (ToLower "HostName"))
         (CIType.Attributes Samples.labelled)).
Proof.
  refine (proj1 (Get_after_validation
                   Examples.shortName Examples.validShortName AttributeFormat GetAttributeFormat
                   ToLower (CIType.Attributes Samples.labelled) "" "HostName" _)).
  reflexivity.
Defined.

(** Before validation, the attribute stored under "HOST" is not found. *)
Lemma Get_lower_case_only_witness :
  Examples.Get (CIType.Attributes Samples.labelled) "HOST"
  <> Some (attribute "Host Name" "HOST" "string" []).
Proof.
  refine (Get_lower_case_only ToLower (CIType.Attributes Samples.labelled) "HOST"
            (attribute "Host Name" "HOST" "string" []) ToLower_no_upper _).
  reflexivity.
Defined.

(** Another password against the hash of "secret". *)
Lemma CheckPassword_other_password_witness :
  CheckPassword Examples.digest Examples.encode Examples.decode
    (HashPasswordWithSalt Examples.digest Examples.encode "secret" Examples.salt) "Secret"
  <> Panics.
Proof.
  refine (proj1 (CheckPassword_other_password
                   Examples.digest Examples.encode Examples.decode
                   digest_length decode_encode encode_nonempty
                   "secret" "Secret" Examples.salt)).
Defined.

(** The hash of "secret" holds the digest of its salt and "secret". *)
Lemma CheckPassword_sound_witness :
  "secret" <> ""
  /\ exists b,
       Examples.decode
         (HashPasswordWithSalt Examples.digest Examples.encode "secret" Examples.salt) = Some b
       /\ 32 <= length b
       /\ firstn 32 b = Examples.digest (skipn 32 b ++ list_byte_of_string "secret").
Proof.
  refine (CheckPassword_sound Examples.digest Examples.encode Examples.decode
            digest_length decode_encode
            (HashPasswordWithSalt Examples.digest Examples.encode "secret" Examples.salt)
            "secret" _).
  reflexivity.
Defined.

(** Two hashes of one password with one salt. *)
Lemma HashPasswordWithSalt_same_hash_witness :
  Examples.salt = Examples.salt
  /\ Examples.digest (Examples.salt ++ list_byte_of_string "secret")
     = Examples.digest (Examples.salt ++ list_byte_of_string "secret").
Proof.
  refine (HashPasswordWithSalt_same_hash Examples.digest Examples.encode Examples.decode
            digest_length decode_encode "secret" "secret" Examples.salt Examples.salt _).
  reflexivity.
Defined.

(** [HashPassword] without a random source. *)
Lemma HashPassword_CheckPassword_witness :
  HashPassword Examples.digest Examples.encode Samples.no_entropy "secret" = Panic.
Proof.
  refine (proj2 (proj2 (proj2 (HashPassword_CheckPassword
                   Examples.digest Examples.encode Examples.decode Samples.no_entropy
                   digest_length decode_encode encode_nonempty "secret"))) _).
  split; [discriminate|reflexivity].
Defined.

(** The key of a user with an e-mail address. *)
Lemma GenerateApiKey_key_witness :
  ("ann@example.com" = "" /\ "mocelpmaxennaaaaaaaaaaaaaaaaaaaa" = "")
  \/ ("ann@example.com" <> ""
      /\ String.length "mocelpmaxennaaaaaaaaaaaaaaaaaaaa" = 32
      /\ forallb_string is_alphanumeric "mocelpmaxennaaaaaaaaaaaaaaaaaaaa" = true).
Proof.
  refine (proj1 (GenerateApiKey_key Examples.digest Examples.encode Samples.letters
                   string (fun u => u) "ann@example.com")
            "mocelpmaxennaaaaaaaaaaaaaaaaaaaa" _).
  reflexivity.
Defined.

(** The configuration loaded from "/etc/alexandria/config.json" stays
    when the files are gone. *)
Lemma GetConfig_singleton_witness :
  let g' := fst (Configuration.GetConfig Samples.etc_only Configuration.initial) in
  Configuration.config g' = Some Configuration.defaults
  /\ (forall fs' : Configuration.FileSystem string,
        Configuration.GetConfig fs' g' = (g', inr Configuration.defaults))
  /\ (forall (fs' : Configuration.FileSystem string) path,
        Configuration.GetConfigFromFile fs' path g'
        = (g', inl "a configuration file was specified but configuration is already loaded")).
Proof.
  refine (GetConfig_singleton string Samples.etc_only Configuration.initial
            Configuration.defaults _).
  reflexivity.
Defined.

(** A "./config.json" that does not decode hides the file under
    "/etc/alexandria". *)
Lemma GetConfig_search_witness :
  Configuration.GetConfig Samples.broken_local Configuration.initial
  = Configuration.GetConfig Samples.broken_local
      (Configuration.mkGlobals "./config.json" None)
  /\ Configuration.confFilePath
       (fst (Configuration.GetConfig Samples.broken_local Configuration.initial))
     = "./config.json".
Proof.
  refine (proj1 (GetConfig_search string Samples.broken_local Configuration.initial _ _) _);
    reflexivity.
Defined.

(** After a failed [GetConfigFromFile], [GetConfig] tries the same path. *)
Lemma confFilePath_kept_witness :
  fst (Configuration.GetConfigFromFile Samples.no_files "/tmp/alexandria.json"
         Configuration.initial)
  = Configuration.mkGlobals "/tmp/alexandria.json" None
  /\ snd (Configuration.GetConfig Samples.etc_only
            (fst (Configuration.GetConfigFromFile Samples.no_files "/tmp/alexandria.json"
                    Configuration.initial)))
     = match Configuration.Open Samples.etc_only "/tmp/alexandria.json" with
       | inl err' => inl err'
       | inr confFile => Configuration.Decode Samples.etc_only confFile Configuration.defaults
       end.
Proof.
  refine (proj2 (confFilePath_kept string Samples.no_files Samples.etc_only
                   Configuration.initial "/tmp/alexandria.json") _ _
            "open /tmp/alexandria.json: no such file or directory" _).
  - reflexivity.
  - discriminate.
  - reflexivity.
Defined.

(** A failed call, then a call that loads the configuration. *)
Lemma loaded_config_comes_from_file_witness :
  let calls :=
    [ (Samples.no_files, Configuration.CallGetConfig);
      (Samples.etc_only, Configuration.CallGetConfig) ] in
  let g := Configuration.after calls Configuration.initial in
  Configuration.confFilePath g <> ""
  /\ exists fs f, In fs (map fst calls)
                  /\ Configuration.Open fs (Configuration.confFilePath g) = inr f
                  /\ Configuration.Decode fs f Configuration.defaults
                     = inr Configuration.defaults.
Proof.
  refine (loaded_config_comes_from_file string
            [ (Samples.no_files, Configuration.CallGetConfig);
              (Samples.etc_only, Configuration.CallGetConfig) ]
            Configuration.defaults _).
  reflexivity.
Defined.
